(** * Blog API: visibility of posts, access policy and response shaping

    A shallow embedding of [backend/posts/views.py] (the three views
    [PostViewSet], [CommentCreateView] and [CommentDetailView]) and of the
    routes of [backend/posts/urls.py].

    The views are thin subclasses of Django REST framework's generic views,
    so the embedding has three layers:
    - the persistent store: two tables, kept as lists of rows in the row
      order of the store, with the query-set operations the views use;
    - the framework: the request pipeline of [rest_framework.views.APIView]
      and the mixins of [rest_framework.mixins], written as functions that
      thread the store and return either a response or an API exception;
    - the views themselves, one [Module] per class, each method a
      definition of the same name. *)

From stdpp Require Import base strings list sorting gmap pretty.
From Stdlib Require Import Ascii.

Local Open Scope Z_scope.

(** ** The caller: [request.user]

    Django hands the view either an [AnonymousUser] (no primary key,
    [is_staff] and [is_authenticated] both [False]) or a stored user, which
    is authenticated and carries its primary key and its staff flag. *)

Inductive User :=
  | AnonymousUser
  | AuthUser (pk : Z) (staff : bool).

Definition is_authenticated (u : User) : bool :=
  match u with AnonymousUser => false | AuthUser _ _ => true end.

Definition is_staff (u : User) : bool :=
  match u with AnonymousUser => false | AuthUser _ s => s end.

Definition user_pk (u : User) : option Z :=
  match u with AnonymousUser => None | AuthUser k _ => Some k end.

(** ** The models

    [posts/models.py] is not among the sources; the rows carry the
    attributes the views read ([id], [slug], [author], [is_published],
    [created_at], [comment_set], [is_approved]) and the ones the data model
    names (title, body, parent post).  A foreign key is the key it stores;
    [created_at] is a point in time, ordered as an integer. *)

Record Post := mkPost {
  post_id : Z;
  slug : string;
  title : string;
  post_body : string;
  post_author : Z;
  is_published : bool;
  created_at : Z
}.

Record Comment := mkComment {
  comment_id : Z;
  comment_post : Z;
  comment_author : Z;
  comment_body : string;
  is_approved : bool
}.

Global Instance Post_eq_dec : EqDecision Post.
Proof. solve_decision. Defined.

Global Instance Comment_eq_dec : EqDecision Comment.
Proof. solve_decision. Defined.

(** The store: [Post.objects] and [Comment.objects], each in row order. *)
Record Store := mkStore {
  posts : list Post;
  comments : list Comment
}.

(** ** Query sets *)

(** [Post.objects.filter(is_published=True)] *)
Definition filter_is_published (qs : list Post) : list Post :=
  filter (λ p, is_published p = true) qs.

(** [ORDER BY key DESC].  SQL leaves the relative order of rows with equal
    keys to the store; rows with equal keys are kept here in the order in
    which the store yields them (a stable insertion sort). *)
Fixpoint insert_desc {A} (key : A → Z) (x : A) (l : list A) : list A :=
  match l with
  | [] => [x]
  | y :: l' =>
      if bool_decide (key y ≤ key x) then x :: y :: l'
      else y :: insert_desc key x l'
  end.

Definition order_by_desc {A} (key : A → Z) (qs : list A) : list A :=
  foldr (insert_desc key) [] qs.

(** [select_related] and [prefetch_related] change how related rows are
    loaded, not which rows the query set holds. *)
Definition select_related {A} (qs : list A) : list A := qs.
Definition prefetch_related {A} (qs : list A) : list A := qs.

(** [post.comment_set.all()]: the reverse side of the comment's foreign key
    to its post, unfiltered. *)
Definition comment_set (db : Store) (p : Post) : list Comment :=
  filter (λ c, comment_post c = post_id p) (comments db).

(** [queryset.get(pk=pk)]: the row with that primary key, if any. *)
Definition get_post (pk : Z) (qs : list Post) : option Post :=
  List.find (λ p, bool_decide (post_id p = pk)) qs.

Definition get_comment (pk : Z) (qs : list Comment) : option Comment :=
  List.find (λ c, bool_decide (comment_id c = pk)) qs.

(** Primary keys are handed out by the store; a new row gets a key above
    every key in its table.  (A store that never hands a key out twice may
    skip some; what follows relies on the new key being unused and not
    negative.) *)
Definition fresh_id (ids : list Z) : Z := 1 + foldr Z.max 0 ids.

(** [instance.save()] on a new row appends it; on a stored row it rewrites
    the row with that primary key.  [instance.delete()] removes the row; the
    comments of a deleted post go with it. *)
Definition insert_post (p : Post) (db : Store) : Store :=
  mkStore (posts db ++ [p]) (comments db).

Definition save_post (p : Post) (db : Store) : Store :=
  mkStore
    (map (λ r, if bool_decide (post_id r = post_id p) then p else r) (posts db))
    (comments db).

Definition delete_post (p : Post) (db : Store) : Store :=
  mkStore
    (filter (λ r, post_id r ≠ post_id p) (posts db))
    (filter (λ c, comment_post c ≠ post_id p) (comments db)).

Definition insert_comment (c : Comment) (db : Store) : Store :=
  mkStore (posts db) (comments db ++ [c]).

Definition save_comment (c : Comment) (db : Store) : Store :=
  mkStore
    (posts db)
    (map (λ r, if bool_decide (comment_id r = comment_id c) then c else r)
       (comments db)).

Definition delete_comment (c : Comment) (db : Store) : Store :=
  mkStore (posts db) (filter (λ r, comment_id r ≠ comment_id c) (comments db)).

(** ** Requests and responses *)

(** A field value of [request.data] or of [serializer.validated_data]. *)
Inductive value :=
  | VNull
  | VBool (b : bool)
  | VInt (z : Z)
  | VStr (s : string).

Global Instance value_eq_dec : EqDecision value.
Proof. solve_decision. Defined.

Record PostSummary := mkPostSummary {
  summary_id : Z;
  summary_slug : string;
  summary_title : string;
  summary_author : Z;
  summary_created_at : Z
}.

Record PostDetail := mkPostDetail {
  detail_post : Post;
  detail_comments : list Comment
}.

(** [response.data]: what a serializer renders, or the dictionary a view
    puts in its place (keys in insertion order). *)
#[local] Unset Elimination Schemes.
Inductive Data :=
  | DNone
  | DSummary (s : PostSummary)
  | DDetail (d : PostDetail)
  | DPost (p : Post)
  | DComment (c : Comment)
  | DDict (kv : list (string * string))
  | DMany (l : list Data).
#[local] Set Elimination Schemes.

Record Response := mkResponse {
  status_code : Z;
  data : Data
}.

Inductive APIException :=
  | NotAuthenticated    (* 401 *)
  | PermissionDenied    (* 403 *)
  | NotFound            (* 404 *)
  | ValidationError     (* 400 *)
  | ServerError.        (* an exception the framework does not handle *)

Inductive Outcome (A : Type) :=
  | Ok (a : A)
  | Raise (e : APIException).
Arguments Ok {A} a.
Arguments Raise {A} e.

(** A view method runs against the store and either returns or raises. *)
Definition View (A : Type) : Type := Store → Outcome A * Store.

Definition ret {A} (a : A) : View A := λ db, (Ok a, db).
Definition raise {A} (e : APIException) : View A := λ db, (Raise e, db).
Definition bind {A B} (m : View A) (k : A → View B) : View B :=
  λ db, match m db with
        | (Ok a, db') => k a db'
        | (Raise e, db') => (Raise e, db')
        end.
Definition read : View Store := λ db, (Ok db, db).
Definition write (f : Store → Store) : View unit := λ db, (Ok (), f db).

Notation "'let*' x := m 'in' k" := (bind m (λ x, k))
  (at level 10, x name, m at level 100, k at level 200,
   format "'[v' 'let*'  x  :=  m  'in' '/' k ']'").
Notation "m ;;; k" := (bind m (λ _, k))
  (at level 100, k at level 200, right associativity).

(** ** Actions and methods

    The router of [urls.py] registers [PostViewSet] under [posts/], so each
    action is reached by the method the [DefaultRouter] binds to it; the two
    comment routes bind [POST] to [create] and [GET], [PUT], [PATCH] and
    [DELETE] to [retrieve], [update], [partial_update] and [destroy]. *)

Inductive Action :=
  | act_list | act_retrieve | act_create
  | act_update | act_partial_update | act_destroy.

Inductive Method := GET | POST | PUT | PATCH | DELETE.

Definition method_of (a : Action) : Method :=
  match a with
  | act_list | act_retrieve => GET
  | act_create => POST
  | act_update => PUT
  | act_partial_update => PATCH
  | act_destroy => DELETE
  end.

(** ** Permissions

    A permission class answers for the request as a whole and for one
    object; [BasePermission] answers [True] to both. *)

Record Permission (Obj : Type) := mkPermission {
  has_permission : User → Action → bool;
  has_object_permission : User → Action → Obj → bool
}.
Arguments mkPermission {Obj} _ _.
Arguments has_permission {Obj} _ _ _.
Arguments has_object_permission {Obj} _ _ _ _.

(** [rest_framework.permissions.IsAuthenticated] *)
Definition IsAuthenticated {Obj} : Permission Obj :=
  mkPermission (λ user _, is_authenticated user) (λ _ _ _, true).

(** Modelled from the spec: [IsAdminOrReadOnly] of [posts/permissions.py],
    which is not among the sources.  Reading a post is always permitted;
    writing one is permitted only if the caller is staff, or the action is
    [create] and the caller is authenticated. *)
Definition IsAdminOrReadOnly_allows (user : User) (action : Action) : bool :=
  match action with
  | act_list | act_retrieve => true
  | act_create => is_staff user || is_authenticated user
  | act_update | act_partial_update | act_destroy => is_staff user
  end.

Definition IsAdminOrReadOnly : Permission Post :=
  mkPermission IsAdminOrReadOnly_allows (λ user action _,
    IsAdminOrReadOnly_allows user action).

(** Modelled from the spec: [IsAuthorOrAdmin] of [posts/permissions.py],
    which is not among the sources.  Reading, updating or deleting a
    comment is permitted iff the caller is staff or the comment's author id
    equals the caller's id. *)
Definition IsAuthorOrAdmin : Permission Comment :=
  mkPermission (λ _ _, true) (λ user _ obj,
    is_staff user || bool_decide (user_pk user = Some (comment_author obj))).

(** ** The request pipeline of [APIView] and [GenericAPIView] *)

(** [permission_denied]: an unauthenticated request is answered 401, an
    authenticated one 403. *)
Definition permission_denied {A} (user : User) : View A :=
  if is_authenticated user then raise PermissionDenied
  else raise NotAuthenticated.

(** [check_permissions], run by [initial] before the handler. *)
Definition check_permissions {Obj} (perm : Permission Obj)
    (user : User) (action : Action) : View unit :=
  if has_permission perm user action then ret ()
  else permission_denied user.

Definition check_object_permissions {Obj} (perm : Permission Obj)
    (user : User) (action : Action) (obj : Obj) : View unit :=
  if has_object_permission perm user action obj then ret ()
  else permission_denied user.

(** [get_object_or_404] *)
Definition get_object_or_404 {Obj} (found : option Obj) : View Obj :=
  match found with
  | Some obj => ret obj
  | None => raise NotFound
  end.

(** ** Serializers

    [posts/serializers.py] is not among the sources. *)

Abbreviation fields := (gmap string value).

Definition field_str (d : fields) (k : string) (dflt : string) : string :=
  match d !! k with Some (VStr s) => s | _ => dflt end.

Definition field_int (d : fields) (k : string) (dflt : Z) : Z :=
  match d !! k with Some (VInt z) => z | _ => dflt end.

Definition field_bool (d : fields) (k : string) (dflt : bool) : bool :=
  match d !! k with Some (VBool b) => b | _ => dflt end.

(** A serializer in the middle of a write: the instance it was bound to
    (none on create) and the validated fields, which a view may edit before
    it calls [save]. *)
Record Serializer (Obj : Type) := mkSerializer {
  instance : option Obj;
  validated_data : fields
}.
Arguments mkSerializer {Obj} _ _.
Arguments instance {Obj} _.
Arguments validated_data {Obj} _.

(** [ModelSerializer.update]: every validated field is assigned to the
    attribute of its name.  Validation yields values of the field's type;
    a key that names no column leaves the row as it is. *)
Definition Post_assign (vd : fields) (p : Post) : Post :=
  {| post_id := post_id p;
     slug := slug p;
     title := field_str vd "title" (title p);
     post_body := field_str vd "body" (post_body p);
     post_author := field_int vd "author" (post_author p);
     is_published := field_bool vd "is_published" (is_published p);
     created_at := created_at p |}.

Definition Comment_assign (vd : fields) (c : Comment) : Comment :=
  {| comment_id := comment_id c;
     comment_post := field_int vd "post" (comment_post c);
     comment_author := field_int vd "author" (comment_author c);
     comment_body := field_str vd "body" (comment_body c);
     is_approved := field_bool vd "is_approved" (is_approved c) |}.

(** Modelled from the spec: the validation of [PostWriteSerializer].  The
    required fields title and body must be present and non-empty (a partial
    update may leave them out); [is_published] stays at its default unless
    the caller is staff and sets it explicitly. *)
Definition required_text (partial : bool) (data : fields) (k : string)
    : option fields :=
  match data !! k with
  | Some (VStr s) => if decide (s = "") then None else Some {[ k := VStr s ]}
  | Some _ => None
  | None => if partial then Some ∅ else None
  end.

Definition staff_flag (user : User) (data : fields) (k : string)
    : option fields :=
  match data !! k with
  | Some (VBool b) => Some (if is_staff user then {[ k := VBool b ]} else ∅)
  | Some _ => None
  | None => Some ∅
  end.

Definition PostWriteSerializer_validate (user : User) (partial : bool)
    (data : fields) : option fields :=
  t ← required_text partial data "title";
  b ← required_text partial data "body";
  f ← staff_flag user data "is_published";
  Some (t ∪ b ∪ f).

(** Modelled from the spec: what the three post serializers render.  The
    summary has no body; the detail is the whole post with the nested
    sequence of its comments, approved or not; the write serializer renders
    the stored resource. *)
Definition PostListSerializer (p : Post) : PostSummary :=
  mkPostSummary (post_id p) (slug p) (title p) (post_author p) (created_at p).

Definition PostDetailSerializer (db : Store) (p : Post) : PostDetail :=
  mkPostDetail p (comment_set db p).

Inductive PostSerializerClass :=
  | cls_PostListSerializer
  | cls_PostDetailSerializer
  | cls_PostWriteSerializer.

Definition to_representation (cls : PostSerializerClass) (db : Store)
    (p : Post) : Data :=
  match cls with
  | cls_PostListSerializer => DSummary (PostListSerializer p)
  | cls_PostDetailSerializer => DDetail (PostDetailSerializer db p)
  | cls_PostWriteSerializer => DPost p
  end.

(** [serializer.is_valid(raise_exception=True)] *)
Definition is_valid (checked : option fields) : View fields :=
  match checked with
  | Some vd => ret vd
  | None => raise ValidationError
  end.

(** [serializer.save] with keyword arguments: the keyword arguments are laid over the
    validated fields, and the serializer creates a row or updates the
    instance it is bound to. *)
Definition save {Obj} (create : fields → View Obj)
    (update : Obj → fields → View Obj)
    (serializer : Serializer Obj) (kwargs : fields) : View Obj :=
  let validated_data := kwargs ∪ validated_data serializer in
  match instance serializer with
  | Some obj => update obj validated_data
  | None => create validated_data
  end.

(** The rows behind [ModelSerializer.create] and [ModelSerializer.update].
    A row without its author cannot be stored. *)
Definition Post_objects_create (slugify : string → string) (now : Z)
    (vd : fields) : View Post :=
  match vd !! "author" with
  | Some (VInt _) =>
      let* db := read in
      let row := Post_assign vd
        (mkPost (fresh_id (map post_id (posts db))) "" "" "" 0 false now) in
      let obj := mkPost (post_id row) (slugify (title row)) (title row)
        (post_body row) (post_author row) (is_published row)
        (created_at row) in
      write (insert_post obj) ;;; ret obj
  | _ => raise ServerError
  end.

Definition Post_update (obj : Post) (vd : fields) : View Post :=
  let obj := Post_assign vd obj in
  write (save_post obj) ;;; ret obj.

(** Modelled from the spec: the create path of [CommentSerializer].  The
    new comment belongs to the given post and author, and its [is_approved]
    flag is false regardless of the input. *)
Definition CommentSerializer_create (vd : fields) : View Comment :=
  match vd !! "author", vd !! "post" with
  | Some (VInt _), Some (VInt _) =>
      let* db := read in
      let obj := Comment_assign (delete "is_approved" vd)
        (mkComment (fresh_id (map comment_id (comments db))) 0 0 "" false) in
      write (insert_comment obj) ;;; ret obj
  | _, _ => raise ServerError
  end.

Definition Comment_update (obj : Comment) (vd : fields) : View Comment :=
  let obj := Comment_assign vd obj in
  write (save_comment obj) ;;; ret obj.

(** [author=self.request.user]: only a stored user can be assigned to a
    foreign key. *)
Definition author_kwarg (user : User) : View fields :=
  match user_pk user with
  | Some k => ret {[ "author" := VInt k ]}
  | None => raise ServerError
  end.

(** What a route asks of the object it names. *)
Inductive DetailRequest :=
  | Retrieve
  | Update (data : fields)
  | PartialUpdate (data : fields)
  | Destroy.

Definition detail_action (r : DetailRequest) : Action :=
  match r with
  | Retrieve => act_retrieve
  | Update _ => act_update
  | PartialUpdate _ => act_partial_update
  | Destroy => act_destroy
  end.

(** ** [class PostViewSet(viewsets.ModelViewSet)] *)

Module PostViewSet.

Definition permission_classes : Permission Post := IsAdminOrReadOnly.

Definition get_queryset (user : User) (action : Action) (db : Store)
  : list Post :=
  let queryset :=
    if is_staff user then posts db
    else filter_is_published (posts db) in
  match action with
  | act_list => order_by_desc created_at (select_related queryset)
  | act_retrieve => prefetch_related (select_related queryset)
  | _ => queryset
  end.

Definition get_serializer_class (action : Action) : PostSerializerClass :=
  match action with
  | act_create | act_update | act_partial_update => cls_PostWriteSerializer
  | act_retrieve => cls_PostDetailSerializer
  | _ => cls_PostListSerializer
  end.

(** [GenericAPIView.get_object] *)
Definition get_object (user : User) (action : Action) (pk : Z) : View Post :=
  let* db := read in
  let* obj := get_object_or_404 (get_post pk (get_queryset user action db)) in
  check_object_permissions permission_classes user action obj ;;;
  ret obj.

(** [ListModelMixin.list] *)
Definition list (user : User) : View Response :=
  let* db := read in
  let queryset := get_queryset user act_list db in
  ret (mkResponse 200
         (DMany (to_representation (get_serializer_class act_list) db
                   <$> queryset))).

(** [RetrieveModelMixin.retrieve] *)
Definition retrieve (user : User) (pk : Z) : View Response :=
  let* instance := get_object user act_retrieve pk in
  let* db := read in
  ret (mkResponse 200
         (to_representation (get_serializer_class act_retrieve) db instance)).

Section create.
(** How the [Post] model derives a slug and the time of the request:
    neither is fixed by the views. *)
Context (slugify : string → string) (now : Z).

(** Returns what the view keeps in [self.created_instance]. *)
Definition perform_create (user : User) (serializer : Serializer Post)
  : View Post :=
  let* author := author_kwarg user in
  save (Post_objects_create slugify now) Post_update serializer author.

Definition create (user : User) (request_data : fields) : View Response :=
  (* response = super().create(...) *)
  let* vd := is_valid (PostWriteSerializer_validate user false request_data) in
  let* created_instance := perform_create user (mkSerializer None vd) in
  let* db := read in
  let response := mkResponse 201
    (to_representation (get_serializer_class act_create) db
       created_instance) in
  let post_url :=
    "/posts/" +:+ slug created_instance +:+ "-"
      +:+ pretty (post_id created_instance) +:+ "/" in
  ret (mkResponse (status_code response)
         (DDict [("url", post_url);
                 ("message", "Post created successfully.")])).
End create.

(** [UpdateModelMixin.perform_update] *)
Definition perform_update (serializer : Serializer Post) : View Post :=
  save (λ _, raise ServerError) Post_update serializer ∅.

(** [action] is [self.action]: [update] for PUT and [partial_update] for
    PATCH.  The keyword arguments of the route hold the primary key only,
    so [kwargs.pop('partial', False)] in the mixin is [False] either
    way. *)
Definition update (user : User) (action : Action) (pk : Z)
    (request_data : fields) : View Response :=
  (* response = super().update(...) *)
  let partial := false in
  let* instance := get_object user action pk in
  let* vd :=
    is_valid (PostWriteSerializer_validate user partial request_data) in
  let* instance := perform_update (mkSerializer (Some instance) vd) in
  let* db := read in
  let response := mkResponse 200
    (to_representation (get_serializer_class action) db instance) in
  ret (mkResponse (status_code response)
         (DDict [("message", "Post updated successfully.")])).

Definition partial_update := update.

(** [DestroyModelMixin.destroy] *)
Definition destroy (user : User) (pk : Z) : View Response :=
  let* instance := get_object user act_destroy pk in
  write (delete_post instance) ;;;
  ret (mkResponse 204 DNone).

Inductive Request :=
  | List
  | Create (data : fields)
  | Detail (pk : Z) (r : DetailRequest).

Definition action_of (r : Request) : Action :=
  match r with
  | List => act_list
  | Create _ => act_create
  | Detail _ d => detail_action d
  end.

(** [dispatch]: [initial] checks the permissions, then the handler of the
    action runs. *)
Definition dispatch (slugify : string → string) (now : Z)
    (user : User) (r : Request) : View Response :=
  check_permissions permission_classes user (action_of r) ;;;
  match r with
  | List => list user
  | Create d => create slugify now user d
  | Detail pk Retrieve => retrieve user pk
  | Detail pk (Update d) => update user act_update pk d
  | Detail pk (PartialUpdate d) => partial_update user act_partial_update pk d
  | Detail pk Destroy => destroy user pk
  end.

End PostViewSet.

(** ** [class CommentCreateView(generics.CreateAPIView)] *)

Module CommentCreateView.

Definition permission_classes : Permission Comment := IsAuthenticated.

Definition perform_create (user : User) (serializer : Serializer Comment)
  : View Comment :=
  let* author := author_kwarg user in
  save CommentSerializer_create Comment_update serializer author.

Section validation.
(** The validation of [CommentSerializer] is not fixed by the views: it
    sees the store, the [partial] flag and the request data. *)
Context (validate : Store → bool → fields → option fields).

(** [CreateModelMixin.create] *)
Definition create (user : User) (request_data : fields) : View Response :=
  let* db := read in
  let* vd := is_valid (validate db false request_data) in
  let* obj := perform_create user (mkSerializer None vd) in
  ret (mkResponse 201 (DComment obj)).

Definition dispatch (user : User) (request_data : fields)
  : View Response :=
  check_permissions permission_classes user act_create ;;;
  create user request_data.
End validation.

End CommentCreateView.

(** ** [class CommentDetailView(generics.RetrieveUpdateDestroyAPIView)] *)

Module CommentDetailView.

(** [queryset = Comment.objects.all()] *)
Definition queryset (db : Store) : list Comment := comments db.

Definition permission_classes : Permission Comment := IsAuthorOrAdmin.

(** [GenericAPIView.get_object] *)
Definition get_object (user : User) (action : Action) (pk : Z)
  : View Comment :=
  let* db := read in
  let* obj := get_object_or_404 (get_comment pk (queryset db)) in
  check_object_permissions permission_classes user action obj ;;;
  ret obj.

(** [RetrieveModelMixin.retrieve] *)
Definition retrieve (user : User) (pk : Z) : View Response :=
  let* instance := get_object user act_retrieve pk in
  ret (mkResponse 200 (DComment instance)).

(** The body of the [if]: [del serializer.validated_data["is_approved"]]
    when the key is there. *)
Definition strip_is_approved (serializer : Serializer Comment)
  : Serializer Comment :=
  if decide (is_Some (validated_data serializer !! "is_approved")) then
    mkSerializer (instance serializer)
      (delete "is_approved" (validated_data serializer))
  else serializer.

Definition perform_update (user : User) (serializer : Serializer Comment)
  : View Comment :=
  let serializer :=
    if negb (is_staff user) then strip_is_approved serializer
    else serializer in
  save CommentSerializer_create Comment_update serializer ∅.

Section validation.
Context (validate : Store → bool → fields → option fields).

(** [UpdateModelMixin.update], with the [partial] flag of its keyword
    arguments. *)
Definition update (partial : bool) (user : User) (action : Action)
    (pk : Z) (request_data : fields) : View Response :=
  let* instance := get_object user action pk in
  let* db := read in
  let* vd := is_valid (validate db partial request_data) in
  let* instance := perform_update user (mkSerializer (Some instance) vd) in
  ret (mkResponse 200 (DComment instance)).

(** [UpdateModelMixin.partial_update] sets [partial] and calls
    [update]. *)
Definition partial_update (user : User) (pk : Z) (request_data : fields)
  : View Response :=
  update true user act_partial_update pk request_data.

(** [DestroyModelMixin.destroy] *)
Definition destroy (user : User) (pk : Z) : View Response :=
  let* instance := get_object user act_destroy pk in
  write (delete_comment instance) ;;;
  ret (mkResponse 204 DNone).

Definition dispatch (user : User) (pk : Z) (r : DetailRequest)
  : View Response :=
  check_permissions permission_classes user (detail_action r) ;;;
  match r with
  | Retrieve => retrieve user pk
  | Update d => update false user act_update pk d
  | PartialUpdate d => partial_update user pk d
  | Destroy => destroy user pk
  end.
End validation.

End CommentDetailView.

(** ** Vocabulary of the properties *)

(** Primary keys identify rows. *)
Definition primary_keys_unique (db : Store) : Prop :=
  NoDup (post_id <$> posts db) ∧ NoDup (comment_id <$> comments db).

(** The exception [permission_denied] raises for a caller. *)
Definition denial (user : User) : APIException :=
  if is_authenticated user then PermissionDenied else NotAuthenticated.

(** A request was permitted unless it was answered 401 or 403. *)
Definition permitted {A} (out : Outcome A * Store) : bool :=
  match out.1 with
  | Raise NotAuthenticated | Raise PermissionDenied => false
  | _ => true
  end.

(** The [partial] flag and the data of a PUT or a PATCH. *)
Definition update_of (r : DetailRequest) : option (bool * fields) :=
  match r with
  | Update d => Some (false, d)
  | PartialUpdate d => Some (true, d)
  | Retrieve | Destroy => None
  end.

(** No character of the string is a dash. *)
Fixpoint dashless (s : string) : bool :=
  match s with
  | EmptyString => true
  | String c s' => negb (Ascii.eqb c "-"%char) && dashless s'
  end.

(** [p] may stand before [q] in a list ordered by creation time descending,
    ties broken by identifier descending. *)
Definition newest_then_highest_id (p q : Post) : Prop :=
  created_at q < created_at p
  ∨ (created_at q = created_at p ∧ post_id q < post_id p).

(** [p] may stand before [q] in a list ordered by creation time
    descending. *)
Definition newest_first (p q : Post) : Prop := created_at q ≤ created_at p.

(** A small store to run the views on: Ann (1) is staff, Bob (2) and
    Cy (3) are not.  Bob wrote an unpublished post, on which he and Cy
    commented. *)
Module Sample.
Definition ann : User := AuthUser 1 true.
Definition bob : User := AuthUser 2 false.
Definition cy : User := AuthUser 3 false.

Definition hello : Post := mkPost 1 "hello" "Hello" "First post." 1 true 100.
Definition draft : Post := mkPost 2 "draft" "Draft" "Not yet." 2 false 100.
Definition news : Post := mkPost 3 "news" "News" "Read this." 1 true 200.

Definition by_bob : Comment := mkComment 1 2 2 "Mine." false.
Definition by_cy : Comment := mkComment 2 2 3 "Nice." true.

Definition db : Store := mkStore [hello; draft; news] [by_bob; by_cy].

(** A validation that lets every field through. *)
Definition lenient (_ : Store) (_ : bool) (d : fields) : option fields :=
  Some d.

Definition slugify (s : string) : string := s.
End Sample.

(** * Properties *)

(** Closed decidable facts about the sample store are settled by running
    their decision procedure. *)
Ltac by_computation :=
  match goal with
  | |- ?P => apply (bool_decide_unpack P); vm_compute; reflexivity
  end.

(** ** Ordering *)

Section order_by.
Context {A : Type} (key : A → Z).

Lemma insert_desc_perm x l : insert_desc key x l ≡ₚ x :: l.
Proof.
  induction l as [|y l IH]; simpl; [done|].
  case_bool_decide; [done|].
  rewrite IH. apply Permutation_swap.
Qed.

Lemma order_by_desc_perm l : order_by_desc key l ≡ₚ l.
Proof.
  induction l as [|x l IH]; simpl; [done|].
  rewrite insert_desc_perm. by f_equiv.
Qed.

Lemma elem_of_order_by_desc x l : x ∈ order_by_desc key l ↔ x ∈ l.
Proof. by rewrite order_by_desc_perm. Qed.

Let desc (x y : A) : Prop := key y ≤ key x.

Lemma insert_desc_hd a x l :
  desc a x → HdRel desc a l → HdRel desc a (insert_desc key x l).
Proof.
  intros Hax Hal. destruct l as [|y l]; simpl.
  - by constructor.
  - case_bool_decide; constructor; [done|].
    by inversion Hal.
Qed.

Lemma insert_desc_sorted x l :
  Sorted desc l → Sorted desc (insert_desc key x l).
Proof.
  induction 1 as [|y l Hl IH Hy]; simpl.
  - repeat constructor.
  - case_bool_decide as Hle.
    + constructor; [by constructor|]. by constructor.
    + constructor; [done|].
      apply insert_desc_hd; [|done]. unfold desc. lia.
Qed.

Lemma order_by_desc_sorted l : Sorted desc (order_by_desc key l).
Proof.
  induction l as [|x l IH]; simpl; [constructor|].
  by apply insert_desc_sorted.
Qed.

(** Rows of equal key keep the order they had. *)
Lemma insert_desc_stable t x l :
  filter (λ y, key y = t) (insert_desc key x l)
  = filter (λ y, key y = t) (x :: l).
Proof.
  induction l as [|y l IH]; simpl; [done|].
  case_bool_decide as Hle; [done|].
  rewrite !filter_cons. rewrite filter_cons in IH. rewrite IH.
  repeat case_decide; try done; lia.
Qed.

Lemma order_by_desc_stable t l :
  filter (λ y, key y = t) (order_by_desc key l) = filter (λ y, key y = t) l.
Proof.
  induction l as [|x l IH]; simpl; [done|].
  rewrite insert_desc_stable, !filter_cons. by rewrite IH.
Qed.
End order_by.

(** ** Lookups by primary key *)

Lemma get_post_Some pk qs p :
  get_post pk qs = Some p → p ∈ qs ∧ post_id p = pk.
Proof.
  unfold get_post. intros H. apply find_some in H as [Hin Hpk].
  apply list_elem_of_In in Hin. by apply bool_decide_eq_true in Hpk.
Qed.

Lemma get_post_None pk qs :
  get_post pk qs = None ↔ ∀ p, p ∈ qs → post_id p ≠ pk.
Proof.
  unfold get_post. split.
  - intros H p Hin Hpk. apply list_elem_of_In in Hin.
    pose proof (find_none _ _ H p Hin) as Hn. simpl in Hn.
    by apply bool_decide_eq_false in Hn.
  - intros H. induction qs as [|q qs IH]; simpl; [done|].
    rewrite bool_decide_eq_false_2; [|apply H; left].
    apply IH. intros p Hp. apply H. by right.
Qed.

Lemma unique_post_id l p q :
  NoDup (post_id <$> l) → p ∈ l → q ∈ l → post_id p = post_id q → p = q.
Proof.
  induction l as [|x l IH]; simpl; intros Hnd Hp Hq Heq.
  - by apply elem_of_nil in Hp.
  - apply NoDup_cons in Hnd as [Hx Hnd].
    apply elem_of_cons in Hp as [->|Hp]; apply elem_of_cons in Hq as [->|Hq];
      try done.
    + exfalso. apply Hx. rewrite Heq. by apply list_elem_of_fmap_2.
    + exfalso. apply Hx. rewrite <- Heq. by apply list_elem_of_fmap_2.
    + by apply IH.
Qed.

Lemma get_comment_Some pk qs c :
  get_comment pk qs = Some c → c ∈ qs ∧ comment_id c = pk.
Proof.
  unfold get_comment. intros H. apply find_some in H as [Hin Hpk].
  apply list_elem_of_In in Hin. by apply bool_decide_eq_true in Hpk.
Qed.

(** Rewriting rows without touching their keys commutes with the lookup. *)
Lemma get_comment_fmap (f : Comment → Comment) pk qs :
  (∀ r, comment_id (f r) = comment_id r) →
  get_comment pk (f <$> qs) = f <$> get_comment pk qs.
Proof.
  intros Hf. unfold get_comment.
  induction qs as [|r qs IH]; simpl; [done|].
  rewrite Hf. by case_bool_decide.
Qed.

(** ** The request pipeline, step by step *)

Lemma permission_denied_eq {A} u db :
  permission_denied (A:=A) u db = (Raise (denial u), db).
Proof. unfold permission_denied, denial. by destruct (is_authenticated u). Qed.

Lemma post_get_object_eq u a pk db :
  PostViewSet.get_object u a pk db =
  match get_post pk (PostViewSet.get_queryset u a db) with
  | None => (Raise NotFound, db)
  | Some p =>
      if IsAdminOrReadOnly_allows u a then (Ok p, db)
      else (Raise (denial u), db)
  end.
Proof.
  unfold PostViewSet.get_object, bind, read, get_object_or_404,
    check_object_permissions.
  destruct (get_post _ _) as [p|]; simpl; [|done].
  destruct (IsAdminOrReadOnly_allows u a); simpl; [done|].
  by rewrite permission_denied_eq.
Qed.

Lemma post_dispatch_eq slugify now u r db :
  PostViewSet.dispatch slugify now u r db =
  if IsAdminOrReadOnly_allows u (PostViewSet.action_of r) then
    match r with
    | PostViewSet.List => PostViewSet.list u db
    | PostViewSet.Create d => PostViewSet.create slugify now u d db
    | PostViewSet.Detail pk Retrieve => PostViewSet.retrieve u pk db
    | PostViewSet.Detail pk (Update d) =>
        PostViewSet.update u act_update pk d db
    | PostViewSet.Detail pk (PartialUpdate d) =>
        PostViewSet.partial_update u act_partial_update pk d db
    | PostViewSet.Detail pk Destroy => PostViewSet.destroy u pk db
    end
  else (Raise (denial u), db).
Proof.
  unfold PostViewSet.dispatch, bind, check_permissions. simpl.
  destruct (IsAdminOrReadOnly_allows u _); simpl.
  - by destruct r as [| |pk []].
  - by rewrite permission_denied_eq.
Qed.

Lemma post_retrieve_eq u pk db :
  PostViewSet.retrieve u pk db =
  match get_post pk (PostViewSet.get_queryset u act_retrieve db) with
  | None => (Raise NotFound, db)
  | Some p => (Ok (mkResponse 200 (DDetail (PostDetailSerializer db p))), db)
  end.
Proof.
  unfold PostViewSet.retrieve, bind. rewrite post_get_object_eq.
  by destruct (get_post _ _).
Qed.

(** ** Visibility of posts *)

Lemma elem_of_get_queryset u a db p :
  p ∈ PostViewSet.get_queryset u a db
  ↔ p ∈ posts db ∧ (is_staff u = true ∨ is_published p = true).
Proof.
  unfold PostViewSet.get_queryset, select_related, prefetch_related,
    filter_is_published.
  assert (p ∈ (if is_staff u then posts db
               else filter (λ p, is_published p = true) (posts db))
          ↔ p ∈ posts db ∧ (is_staff u = true ∨ is_published p = true)) as H.
  { destruct (is_staff u).
    - intuition.
    - rewrite list_elem_of_filter. intuition congruence. }
  destruct a; try rewrite elem_of_order_by_desc; exact H.
Qed.

(** C1. Whatever the action, a post is in the query set of a caller exactly
    when it is stored and either the caller is staff or the post is
    published: staff see every post, everybody else (anonymous or
    authenticated) sees the published posts only; the author of a post
    plays no part. *)
Theorem visible_posts (u : User) (a : Action) (db : Store) (p : Post) :
  p ∈ PostViewSet.get_queryset u a db
  ↔ p ∈ posts db ∧ (if is_staff u then True else is_published p = true).
Proof.
  rewrite elem_of_get_queryset. destruct (is_staff u); intuition congruence.
Qed.

Lemma retrieve_hidden slugify now u db p :
  NoDup (post_id <$> posts db) → p ∈ posts db →
  is_staff u = false → is_published p = false →
  PostViewSet.dispatch slugify now u
    (PostViewSet.Detail (post_id p) Retrieve) db
  = (Raise NotFound, db).
Proof.
  intros Hnd Hin Hu Hp.
  assert (get_post (post_id p) (PostViewSet.get_queryset u act_retrieve db)
          = None) as Hnone.
  { apply get_post_None. intros q Hq Heq.
    apply elem_of_get_queryset in Hq as [Hq [?|Hpub]]; [congruence|].
    assert (q = p) as -> by eauto using unique_post_id. congruence. }
  rewrite post_dispatch_eq, post_retrieve_eq. by rewrite Hnone.
Qed.

(** C2. A caller who is not staff asks for an unpublished post by its id:
    the answer is [NotFound], never a refusal, whoever the caller is
    (anonymous, or even the author of the post), and the store is left as it
    was.  The post is missing from the query set the lookup runs on, so the
    request never reaches the permission check on the object. *)
Theorem unpublished_not_found slugify now (u : User) (db : Store) (p : Post) :
  primary_keys_unique db → p ∈ posts db →
  is_staff u = false → is_published p = false →
  PostViewSet.dispatch slugify now u
    (PostViewSet.Detail (post_id p) Retrieve) db
  = (Raise NotFound, db)
  ∧ get_post (post_id p) (PostViewSet.get_queryset u act_retrieve db) = None.
Proof.
  intros [Hnd _] Hin Hu Hp. split; [by apply retrieve_hidden|].
  apply get_post_None. intros q Hq Heq.
  apply elem_of_get_queryset in Hq as [Hq [?|Hpub]]; [congruence|].
  assert (q = p) as -> by eauto using unique_post_id. congruence.
Qed.

Lemma unpublished_not_found_witness :
  PostViewSet.dispatch Sample.slugify 300 Sample.bob
    (PostViewSet.Detail 2 Retrieve) Sample.db
  = (Raise NotFound, Sample.db)
  ∧ get_post 2 (PostViewSet.get_queryset Sample.bob act_retrieve Sample.db)
    = None.
Proof.
  apply (unpublished_not_found Sample.slugify 300 Sample.bob Sample.db
           Sample.draft).
  - split; by_computation.
  - by_computation.
  - reflexivity.
  - reflexivity.
Defined.

(** ** Posts: list, detail, create, update *)

Lemma post_list_eq u db :
  PostViewSet.list u db =
  (Ok (mkResponse 200
         (DMany (DSummary ∘ PostListSerializer
                   <$> PostViewSet.get_queryset u act_list db))), db).
Proof. reflexivity. Qed.

Lemma author_kwarg_lookup k (vd : fields) :
  ({[ "author" := VInt k ]} ∪ vd) !! "author" = Some (VInt k).
Proof. apply lookup_union_Some_l. apply lookup_singleton_eq. Qed.

Lemma post_create_eq slugify now u d db :
  PostViewSet.create slugify now u d db =
  match PostWriteSerializer_validate u false d, user_pk u with
  | None, _ => (Raise ValidationError, db)
  | Some _, None => (Raise ServerError, db)
  | Some vd, Some k =>
      let row := Post_assign ({[ "author" := VInt k ]} ∪ vd)
        (mkPost (fresh_id (post_id <$> posts db)) "" "" "" 0 false now) in
      let p := mkPost (post_id row) (slugify (title row)) (title row)
        (post_body row) k (is_published row) now in
      (Ok (mkResponse 201
             (DDict [("url", "/posts/" +:+ slug p +:+ "-"
                               +:+ pretty (post_id p) +:+ "/");
                     ("message", "Post created successfully.")])),
       insert_post p db)
  end.
Proof.
  unfold PostViewSet.create, PostViewSet.perform_create, bind, is_valid,
    author_kwarg.
  destruct (PostWriteSerializer_validate u false d) as [vd|]; [|done].
  destruct (user_pk u) as [k|]; [|done].
  unfold ret, save, Post_objects_create. cbn [instance validated_data].
  rewrite author_kwarg_lookup.
  unfold bind, read, write, ret, Post_assign, field_int.
  rewrite author_kwarg_lookup. reflexivity.
Qed.

Lemma post_update_eq u a pk d db :
  PostViewSet.update u a pk d db =
  match PostViewSet.get_object u a pk db with
  | (Raise e, _) => (Raise e, db)
  | (Ok p, _) =>
      match PostWriteSerializer_validate u false d with
      | None => (Raise ValidationError, db)
      | Some vd =>
          (Ok (mkResponse 200
                 (DDict [("message", "Post updated successfully.")])),
           save_post (Post_assign vd p) db)
      end
  end.
Proof.
  unfold PostViewSet.update, bind. rewrite post_get_object_eq.
  destruct (get_post _ _) as [p|]; [|done].
  destruct (IsAdminOrReadOnly_allows u a); [|done].
  unfold is_valid.
  destruct (PostWriteSerializer_validate u false d) as [vd|]; [|done].
  unfold ret, PostViewSet.perform_update, save. cbn [instance validated_data].
  by rewrite (left_id_L ∅ (∪)).
Qed.

Lemma post_destroy_eq u pk db :
  PostViewSet.destroy u pk db =
  match PostViewSet.get_object u act_destroy pk db with
  | (Raise e, _) => (Raise e, db)
  | (Ok p, _) => (Ok (mkResponse 204 DNone), delete_post p db)
  end.
Proof.
  unfold PostViewSet.destroy, bind. rewrite post_get_object_eq.
  destruct (get_post _ _) as [p|]; [|done].
  by destruct (IsAdminOrReadOnly_allows u act_destroy).
Qed.

(** C5. When a post is created, one row is added to the store; its author
    is the caller, and the body of the response is the dictionary of
    exactly the two keys [url] and [message], where [url] is
    [/posts/{slug}-{id}/] for the slug and the id of the new row and
    [message] is a fixed text.  The representation of the resource is not
    in it. *)
Theorem post_create_response slugify now (u : User) (d : fields)
    (db db' : Store) (resp : Response) :
  PostViewSet.dispatch slugify now u (PostViewSet.Create d) db
  = (Ok resp, db') →
  ∃ p : Post,
    posts db' = posts db ++ [p]
    ∧ user_pk u = Some (post_author p)
    ∧ data resp =
        DDict [("url", "/posts/" +:+ slug p +:+ "-"
                          +:+ pretty (post_id p) +:+ "/");
               ("message", "Post created successfully.")].
Proof.
  rewrite post_dispatch_eq, post_create_eq.
  destruct (IsAdminOrReadOnly_allows _ _); [|done].
  destruct (PostWriteSerializer_validate u false d) as [vd|]; [|done].
  destruct (user_pk u) as [k|]; [|done].
  intros [= <- <-]. eexists. split; [reflexivity|]. split; reflexivity.
Qed.

Lemma post_create_response_witness :
  ∃ p : Post,
    posts (PostViewSet.dispatch Sample.slugify 300 Sample.bob
             (PostViewSet.Create {[ "title" := VStr "T"; "body" := VStr "B" ]})
             Sample.db).2
    = posts Sample.db ++ [p]
    ∧ user_pk Sample.bob = Some (post_author p)
    ∧ DDict [("url", "/posts/T-4/");
             ("message", "Post created successfully.")]
      = DDict [("url", "/posts/" +:+ slug p +:+ "-"
                         +:+ pretty (post_id p) +:+ "/");
               ("message", "Post created successfully.")].
Proof.
  apply (post_create_response Sample.slugify 300 Sample.bob
           {[ "title" := VStr "T"; "body" := VStr "B" ]} Sample.db _
           (mkResponse 201
              (DDict [("url", "/posts/T-4/");
                      ("message", "Post created successfully.")]))).
  vm_compute. reflexivity.
Defined.

(** C6. Updating or deleting a post is for staff: a PUT, PATCH or DELETE by
    a caller who is not staff, the author of the post included, is refused
    and leaves the store as it was.  An update (PUT or PATCH) that succeeds
    was made by staff, and the body of its response is the dictionary with
    the fixed message alone, not the updated resource. *)
Theorem post_write_staff_only slugify now (u : User) (pk : Z)
    (r : DetailRequest) (db : Store) :
  r ≠ Retrieve →
  (is_staff u = false →
   PostViewSet.dispatch slugify now u (PostViewSet.Detail pk r) db
   = (Raise (denial u), db))
  ∧ (∀ resp db',
       PostViewSet.dispatch slugify now u (PostViewSet.Detail pk r) db
       = (Ok resp, db') →
       is_staff u = true
       ∧ (r ≠ Destroy →
          data resp = DDict [("message", "Post updated successfully.")])).
Proof.
  intros Hr. rewrite post_dispatch_eq.
  assert (IsAdminOrReadOnly_allows u
            (PostViewSet.action_of (PostViewSet.Detail pk r)) = is_staff u)
    as -> by by destruct r.
  destruct (is_staff u); split; try done.
  intros resp db'. split; [done|]. revert H.
  destruct r as [|d|d|]; try done; intros H _; revert H;
    unfold PostViewSet.partial_update; rewrite post_update_eq;
    destruct (PostViewSet.get_object _ _ _ _) as [[p|e] ?]; try done;
    destruct (PostWriteSerializer_validate _ _ _); try done;
    by intros [= <- <-].
Qed.

Lemma post_write_staff_only_witness :
  PostViewSet.dispatch Sample.slugify 300 Sample.bob
    (PostViewSet.Detail 2 (PartialUpdate {[ "title" := VStr "Mine" ]}))
    Sample.db
  = (Raise PermissionDenied, Sample.db)
  ∧ PostViewSet.dispatch Sample.slugify 300 Sample.ann
      (PostViewSet.Detail 2
         (Update {[ "title" := VStr "T"; "body" := VStr "B" ]}))
      Sample.db
    = (Ok (mkResponse 200 (DDict [("message", "Post updated successfully.")])),
       save_post (mkPost 2 "draft" "T" "B" 2 false 100) Sample.db)
  ∧ data (mkResponse 200 (DDict [("message", "Post updated successfully.")]))
    = DDict [("message", "Post updated successfully.")].
Proof.
  split.
  - apply (post_write_staff_only Sample.slugify 300 Sample.bob 2
             (PartialUpdate {[ "title" := VStr "Mine" ]}) Sample.db);
      [discriminate | reflexivity].
  - assert (PostViewSet.dispatch Sample.slugify 300 Sample.ann
              (PostViewSet.Detail 2
                 (Update {[ "title" := VStr "T"; "body" := VStr "B" ]}))
              Sample.db
            = (Ok (mkResponse 200
                     (DDict [("message", "Post updated successfully.")])),
               save_post (mkPost 2 "draft" "T" "B" 2 false 100) Sample.db))
      as Hrun by (vm_compute; reflexivity).
    split; [exact Hrun|].
    refine (proj2 (proj2 (post_write_staff_only Sample.slugify 300 Sample.ann 2
              (Update {[ "title" := VStr "T"; "body" := VStr "B" ]}) Sample.db
              _) _ _ Hrun) _); discriminate.
Defined.

(** C8. Every caller gets the posts visible to them, each once, newest
    first.  Posts created at the same time stand in the order in which the
    store holds them: the query orders by creation time and by nothing
    else. *)
Theorem list_newest_first slugify now (u : User) (db : Store) :
  ∃ qs : list Post,
    PostViewSet.dispatch slugify now u PostViewSet.List db
    = (Ok (mkResponse 200 (DMany (DSummary ∘ PostListSerializer <$> qs))), db)
    ∧ qs ≡ₚ (if is_staff u then posts db else filter_is_published (posts db))
    ∧ Sorted newest_first qs
    ∧ ∀ t, filter (λ p, created_at p = t) qs
           = filter (λ p, created_at p = t)
               (if is_staff u then posts db
                else filter_is_published (posts db)).
Proof.
  exists (PostViewSet.get_queryset u act_list db).
  split; [by rewrite post_dispatch_eq, post_list_eq|].
  unfold PostViewSet.get_queryset, select_related.
  split; [apply order_by_desc_perm|].
  split; [apply order_by_desc_sorted|].
  intros t. apply order_by_desc_stable.
Qed.

(** Ties are not broken by identifier descending: the posts 1 and 2 of the
    sample store were created at the same time, and the list a staff caller
    gets has post 1 before post 2. *)
Lemma list_ties_not_by_id :
  PostViewSet.dispatch Sample.slugify 300 Sample.ann PostViewSet.List Sample.db
  = (Ok (mkResponse 200
           (DMany (DSummary ∘ PostListSerializer
                     <$> [Sample.news; Sample.hello; Sample.draft]))),
     Sample.db)
  ∧ ¬ Sorted newest_then_highest_id [Sample.news; Sample.hello; Sample.draft].
Proof.
  split; [vm_compute; reflexivity|].
  intros H. apply Sorted_inv in H as [H _]. apply Sorted_inv in H as [_ H].
  apply HdRel_inv in H. unfold newest_then_highest_id in H. simpl in H. lia.
Qed.

(** C9. Whoever gets the detail of a post gets, nested in it, every stored
    comment on that post and no other: neither the caller, nor the author
    of a comment, nor its approval decides whether it is listed. *)
Theorem detail_has_all_comments slugify now (u : User) (pk : Z)
    (db db' : Store) (resp : Response) :
  PostViewSet.dispatch slugify now u (PostViewSet.Detail pk Retrieve) db
  = (Ok resp, db') →
  ∃ (p : Post) (cs : list Comment),
    p ∈ posts db ∧ post_id p = pk
    ∧ data resp = DDetail (mkPostDetail p cs)
    ∧ ∀ c : Comment, c ∈ cs ↔ c ∈ comments db ∧ comment_post c = pk.
Proof.
  rewrite post_dispatch_eq, post_retrieve_eq.
  cbn [PostViewSet.action_of detail_action IsAdminOrReadOnly_allows].
  destruct (get_post _ _) as [p|] eqn:Hp; [|done].
  intros [= <- <-]. apply get_post_Some in Hp as [Hin <-].
  apply elem_of_get_queryset in Hin as [Hin _].
  exists p, (comment_set db p).
  split; [done|]. split; [done|]. split; [done|].
  intros c. unfold comment_set. rewrite list_elem_of_filter. tauto.
Qed.

Lemma detail_has_all_comments_witness :
  ∃ (p : Post) (cs : list Comment),
    p ∈ posts Sample.db ∧ post_id p = 2
    ∧ DDetail (mkPostDetail Sample.draft [Sample.by_bob; Sample.by_cy])
      = DDetail (mkPostDetail p cs)
    ∧ ∀ c : Comment, c ∈ cs ↔ c ∈ comments Sample.db ∧ comment_post c = 2.
Proof.
  apply (detail_has_all_comments Sample.slugify 300 Sample.ann 2 Sample.db
           Sample.db
           (mkResponse 200
              (DDetail (mkPostDetail Sample.draft
                          [Sample.by_bob; Sample.by_cy])))).
  vm_compute. reflexivity.
Defined.

(** ** Comments *)

Lemma comment_get_object_eq u a pk db :
  CommentDetailView.get_object u a pk db =
  match get_comment pk (comments db) with
  | None => (Raise NotFound, db)
  | Some c =>
      if is_staff u || bool_decide (user_pk u = Some (comment_author c))
      then (Ok c, db)
      else (Raise (denial u), db)
  end.
Proof.
  unfold CommentDetailView.get_object, CommentDetailView.queryset, bind, read,
    get_object_or_404, check_object_permissions.
  destruct (get_comment _ _) as [c|]; simpl; [|done].
  destruct (is_staff u || _); simpl; [done|].
  by rewrite permission_denied_eq.
Qed.

Lemma comment_perform_update_eq u c vd db :
  CommentDetailView.perform_update u (mkSerializer (Some c) vd) db =
  (Ok (Comment_assign (if is_staff u then vd else delete "is_approved" vd) c),
   save_comment
     (Comment_assign (if is_staff u then vd else delete "is_approved" vd) c)
     db).
Proof.
  unfold CommentDetailView.perform_update,
    CommentDetailView.strip_is_approved, save.
  destruct (is_staff u); cbn [negb instance validated_data].
  - by rewrite (left_id_L ∅ (∪)).
  - case_decide as Hin; cbn [instance validated_data];
      rewrite (left_id_L ∅ (∪)); [done|].
    rewrite delete_id; [done|]. by apply eq_None_not_Some.
Qed.

Section comment_views.
Context (validate : Store → bool → fields → option fields).

Lemma comment_dispatch_eq u pk r db :
  CommentDetailView.dispatch validate u pk r db =
  match r with
  | Retrieve => CommentDetailView.retrieve u pk db
  | Update d => CommentDetailView.update validate false u act_update pk d db
  | PartialUpdate d => CommentDetailView.partial_update validate u pk d db
  | Destroy => CommentDetailView.destroy u pk db
  end.
Proof. by destruct r. Qed.

Lemma comment_update_eq partial u a pk d db :
  CommentDetailView.update validate partial u a pk d db =
  match CommentDetailView.get_object u a pk db with
  | (Raise e, _) => (Raise e, db)
  | (Ok c, _) =>
      match validate db partial d with
      | None => (Raise ValidationError, db)
      | Some vd =>
          let c' := Comment_assign
            (if is_staff u then vd else delete "is_approved" vd) c in
          (Ok (mkResponse 200 (DComment c')), save_comment c' db)
      end
  end.
Proof.
  unfold CommentDetailView.update, bind. rewrite comment_get_object_eq.
  destruct (get_comment _ _) as [c|]; [|done].
  destruct (is_staff u || _); [|done].
  unfold read, is_valid. destruct (validate db partial d) as [vd|]; [|done].
  unfold ret at 1. by rewrite comment_perform_update_eq.
Qed.

Lemma comment_retrieve_eq u pk db :
  CommentDetailView.retrieve u pk db =
  match CommentDetailView.get_object u act_retrieve pk db with
  | (Raise e, _) => (Raise e, db)
  | (Ok c, _) => (Ok (mkResponse 200 (DComment c)), db)
  end.
Proof.
  unfold CommentDetailView.retrieve, bind. rewrite comment_get_object_eq.
  destruct (get_comment _ _) as [c|]; [|done].
  by destruct (is_staff u || _).
Qed.

Lemma comment_destroy_eq u pk db :
  CommentDetailView.destroy u pk db =
  match CommentDetailView.get_object u act_destroy pk db with
  | (Raise e, _) => (Raise e, db)
  | (Ok c, _) => (Ok (mkResponse 204 DNone), delete_comment c db)
  end.
Proof.
  unfold CommentDetailView.destroy, bind. rewrite comment_get_object_eq.
  destruct (get_comment _ _) as [c|]; [|done].
  by destruct (is_staff u || _).
Qed.

(** What any request on a stored comment comes to. *)
Lemma comment_dispatch_found u pk r db c :
  get_comment pk (comments db) = Some c →
  CommentDetailView.dispatch validate u pk r db =
  if is_staff u || bool_decide (user_pk u = Some (comment_author c)) then
    match r with
    | Retrieve => (Ok (mkResponse 200 (DComment c)), db)
    | Destroy => (Ok (mkResponse 204 DNone), delete_comment c db)
    | Update d | PartialUpdate d =>
        match validate db (if r is Update _ then false else true) d with
        | None => (Raise ValidationError, db)
        | Some vd =>
            let c' := Comment_assign
              (if is_staff u then vd else delete "is_approved" vd) c in
            (Ok (mkResponse 200 (DComment c')), save_comment c' db)
        end
    end
  else (Raise (denial u), db).
Proof.
  intros Hc. rewrite comment_dispatch_eq.
  destruct r; unfold CommentDetailView.partial_update;
    rewrite ?comment_retrieve_eq, ?comment_update_eq, ?comment_destroy_eq,
      comment_get_object_eq, Hc;
    by destruct (is_staff u || _).
Qed.
End comment_views.

Lemma save_comment_lookup pk c c' db :
  get_comment pk (comments db) = Some c →
  comment_id c' = comment_id c →
  get_comment pk (comments (save_comment c' db)) = Some c'.
Proof.
  intros Hc Hid. unfold save_comment. cbn [comments].
  rewrite get_comment_fmap, Hc.
  - cbn. by rewrite bool_decide_eq_true_2.
  - intros r. by case_bool_decide.
Qed.

Lemma save_comment_is_approved k pk c c' db :
  get_comment pk (comments db) = Some c →
  comment_id c' = comment_id c →
  is_approved c' = is_approved c →
  is_approved <$> get_comment k (comments (save_comment c' db))
  = is_approved <$> get_comment k (comments db).
Proof.
  intros Hc Hid Happ. unfold save_comment. cbn [comments].
  rewrite get_comment_fmap; [|intros r; by case_bool_decide].
  destruct (get_comment k (comments db)) as [r|] eqn:Hr; [|done].
  cbn. case_bool_decide as Heq; [|done].
  pose proof (get_comment_Some _ _ _ Hr) as [_ Hk].
  pose proof (get_comment_Some _ _ _ Hc) as [_ Hpk].
  assert (k = pk) as -> by congruence.
  assert (r = c) as -> by congruence.
  by rewrite Happ.
Qed.

Lemma Comment_assign_stripped vd c :
  comment_body (Comment_assign (delete "is_approved" vd) c)
  = field_str vd "body" (comment_body c)
  ∧ is_approved (Comment_assign (delete "is_approved" vd) c) = is_approved c.
Proof.
  unfold Comment_assign, field_bool, field_str. cbn.
  rewrite lookup_delete_eq. by rewrite lookup_delete_ne.
Qed.

Lemma may_touch_spec u c :
  is_staff u || bool_decide (user_pk u = Some (comment_author c)) = true
  ↔ is_staff u = true ∨ user_pk u = Some (comment_author c).
Proof. by rewrite orb_true_iff, bool_decide_eq_true. Qed.

Section comment_claims.
Context (validate : Store → bool → fields → option fields).

(** C3. Take a PUT or a PATCH on a comment.  If the caller is not staff,
    then however the request ends, every stored comment keeps its
    [is_approved] flag.  If the caller may touch the comment and the data
    is valid, the request succeeds, whether or not the data holds
    [is_approved]; the stored comment takes the submitted body, and its
    [is_approved] flag is the submitted one if the caller is staff and the
    old one if not. *)
Theorem comment_update_is_approved (u : User) (pk : Z) (r : DetailRequest)
    (partial : bool) (d : fields) (db : Store) :
  update_of r = Some (partial, d) →
  (is_staff u = false →
   ∀ k, is_approved
          <$> get_comment k
                (comments (CommentDetailView.dispatch validate u pk r db).2)
        = is_approved <$> get_comment k (comments db))
  ∧ (∀ c vd,
       get_comment pk (comments db) = Some c →
       is_staff u = true ∨ user_pk u = Some (comment_author c) →
       validate db partial d = Some vd →
       ∃ c' : Comment,
         CommentDetailView.dispatch validate u pk r db
         = (Ok (mkResponse 200 (DComment c')), save_comment c' db)
         ∧ get_comment pk (comments (save_comment c' db)) = Some c'
         ∧ comment_body c' = field_str vd "body" (comment_body c)
         ∧ is_approved c'
           = if is_staff u
             then field_bool vd "is_approved" (is_approved c)
             else is_approved c).
Proof.
  intros Hr. split.
  - intros Hu k.
    destruct (get_comment pk (comments db)) as [c|] eqn:Hc.
    + rewrite (comment_dispatch_found validate u pk r db c Hc), Hu.
      destruct (false || _); [|done].
      destruct r as [|d'|d'|]; try done;
        (destruct (validate db _ d') as [vd|]; [|done]);
        cbn [snd]; eapply save_comment_is_approved; eauto;
        apply (proj2 (Comment_assign_stripped _ _)).
    + rewrite comment_dispatch_eq.
      destruct r as [|d'|d'|]; try done;
        unfold CommentDetailView.partial_update;
        by rewrite comment_update_eq, comment_get_object_eq, Hc.
  - intros c vd Hc Hmay Hvd.
    rewrite (comment_dispatch_found validate u pk r db c Hc).
    assert (is_staff u || bool_decide (user_pk u = Some (comment_author c))
            = true) as ->.
    { destruct Hmay as [->| ->]; [done|].
      rewrite bool_decide_eq_true_2 by done. apply orb_true_r. }
    assert (match r with
            | Update d' | PartialUpdate d' =>
                validate db (if r is Update _ then false else true) d'
            | _ => None
            end = Some vd) as Hv.
    { destruct r; simplify_eq/=; done. }
    destruct r as [|d'|d'|]; try done; rewrite Hv; cbn zeta;
      (eexists; split; [reflexivity|]);
      (split; [by eapply save_comment_lookup|]);
      destruct (is_staff u); try done; apply Comment_assign_stripped.
Qed.

(** C4. A request on a stored comment (retrieve, update or delete) is
    permitted exactly when the caller is staff or is the comment's
    author.  Every other caller is refused and the store is left as it
    was; an unauthenticated caller is always among them. *)
Theorem comment_detail_permission (u : User) (pk : Z) (r : DetailRequest)
    (db : Store) (c : Comment) :
  get_comment pk (comments db) = Some c →
  (permitted (CommentDetailView.dispatch validate u pk r db) = true
   ↔ is_staff u = true ∨ user_pk u = Some (comment_author c))
  ∧ (permitted (CommentDetailView.dispatch validate u pk r db) = false →
     CommentDetailView.dispatch validate u pk r db = (Raise (denial u), db))
  ∧ (is_authenticated u = false →
     permitted (CommentDetailView.dispatch validate u pk r db) = false).
Proof.
  intros Hc. rewrite (comment_dispatch_found validate u pk r db c Hc).
  pose proof (may_touch_spec u c) as Hspec.
  destruct (is_staff u || bool_decide (user_pk u = Some (comment_author c)))
    eqn:Hmay.
  - match goal with
    | |- context [permitted ?o] => assert (permitted o = true) as ->
    end.
    { destruct r as [|d|d|]; try done; by destruct (validate _ _ _). }
    split; [by intuition|]. split; [done|].
    intros Hanon. destruct u; simplify_eq/=.
  - assert (permitted (Raise (A:=Response) (denial u), db) = false) as ->.
    { unfold permitted, denial. by destruct (is_authenticated u). }
    split; [|done]. split; [done|]. intros Hor. apply Hspec in Hor. done.
Qed.
End comment_claims.

Lemma comment_update_is_approved_witness :
  (∀ k, is_approved
          <$> get_comment k
                (comments
                   (CommentDetailView.dispatch Sample.lenient Sample.bob 1
                      (PartialUpdate
                         {[ "is_approved" := VBool true; "body" := VStr "x" ]})
                      Sample.db).2)
        = is_approved <$> get_comment k (comments Sample.db))
  ∧ ∃ c' : Comment,
      CommentDetailView.dispatch Sample.lenient Sample.bob 1
        (PartialUpdate {[ "is_approved" := VBool true; "body" := VStr "x" ]})
        Sample.db
      = (Ok (mkResponse 200 (DComment c')), save_comment c' Sample.db)
      ∧ comment_body c' = "x"
      ∧ is_approved c' = false.
Proof.
  destruct (comment_update_is_approved Sample.lenient Sample.bob 1
              (PartialUpdate
                 {[ "is_approved" := VBool true; "body" := VStr "x" ]})
              true {[ "is_approved" := VBool true; "body" := VStr "x" ]}
              Sample.db eq_refl) as [Hkeep Hok].
  split; [exact (Hkeep eq_refl)|].
  destruct (Hok Sample.by_bob
              {[ "is_approved" := VBool true; "body" := VStr "x" ]}
              eq_refl (or_intror eq_refl) eq_refl)
    as (c' & Hrun & _ & Hbody & Happ).
  exists c'. split; [exact Hrun|]. split; [exact Hbody | exact Happ].
Defined.

Lemma comment_detail_permission_witness :
  CommentDetailView.dispatch Sample.lenient Sample.cy 1
    (PartialUpdate {[ "body" := VStr "x" ]}) Sample.db
  = (Raise PermissionDenied, Sample.db)
  ∧ (permitted
       (CommentDetailView.dispatch Sample.lenient Sample.bob 1 Retrieve
          Sample.db) = true
     ↔ is_staff Sample.bob = true
       ∨ user_pk Sample.bob = Some (comment_author Sample.by_bob)).
Proof.
  split.
  - apply (proj1 (proj2 (comment_detail_permission Sample.lenient Sample.cy 1
                           (PartialUpdate {[ "body" := VStr "x" ]}) Sample.db
                           Sample.by_bob eq_refl))).
    reflexivity.
  - apply (comment_detail_permission Sample.lenient Sample.bob 1 Retrieve
             Sample.db Sample.by_bob eq_refl).
Defined.

Lemma comment_create_eq validate u d db :
  CommentCreateView.dispatch validate u d db =
  match u with
  | AnonymousUser => (Raise NotAuthenticated, db)
  | AuthUser k _ =>
      match validate db false d with
      | None => (Raise ValidationError, db)
      | Some vd =>
          match ({[ "author" := VInt k ]} ∪ vd) !! "post" with
          | Some (VInt _) =>
              let c := Comment_assign
                (delete "is_approved" ({[ "author" := VInt k ]} ∪ vd))
                (mkComment (fresh_id (comment_id <$> comments db)) 0 0 ""
                   false) in
              (Ok (mkResponse 201 (DComment c)), insert_comment c db)
          | _ => (Raise ServerError, db)
          end
      end
  end.
Proof.
  unfold CommentCreateView.dispatch, CommentCreateView.create,
    CommentCreateView.perform_create, check_permissions, bind.
  destruct u as [|k s]; [done|]. cbn.
  unfold is_valid. destruct (validate db false d) as [vd|]; [|done].
  unfold ret at 1, save, CommentSerializer_create.
  cbn [instance validated_data]. rewrite author_kwarg_lookup.
  by destruct (_ !! "post") as [[]|].
Qed.

(** C7. Creating a comment is permitted exactly when the caller is
    authenticated.  A create that succeeds adds one comment to the store;
    its author is the caller, and its [is_approved] flag is false whatever
    the input said. *)
Theorem comment_create_by_caller validate (u : User) (d : fields)
    (db : Store) :
  permitted (CommentCreateView.dispatch validate u d db) = is_authenticated u
  ∧ ∀ resp db',
      CommentCreateView.dispatch validate u d db = (Ok resp, db') →
      ∃ c : Comment,
        comments db' = comments db ++ [c]
        ∧ data resp = DComment c
        ∧ user_pk u = Some (comment_author c)
        ∧ is_approved c = false.
Proof.
  rewrite comment_create_eq. destruct u as [|k s]; [done|].
  destruct (validate db false d) as [vd|]; [|done].
  destruct (_ !! "post") as [[| |z|]|] eqn:Hpost; try done.
  split; [done|]. intros resp db' [= <- <-].
  eexists. split; [reflexivity|]. split; [reflexivity|].
  unfold Comment_assign, field_int, field_bool. cbn.
  rewrite lookup_delete_eq, lookup_delete_ne by done.
  by rewrite author_kwarg_lookup.
Qed.

Lemma comment_create_by_caller_witness :
  permitted
    (CommentCreateView.dispatch Sample.lenient Sample.cy
       {[ "post" := VInt 2; "body" := VStr "Me too.";
          "is_approved" := VBool true ]} Sample.db)
  = true
  ∧ ∃ c : Comment,
      comments
        (CommentCreateView.dispatch Sample.lenient Sample.cy
           {[ "post" := VInt 2; "body" := VStr "Me too.";
              "is_approved" := VBool true ]} Sample.db).2
      = comments Sample.db ++ [c]
      ∧ DComment (mkComment 3 2 3 "Me too." false) = DComment c
      ∧ user_pk Sample.cy = Some (comment_author c)
      ∧ is_approved c = false.
Proof.
  split.
  - apply (comment_create_by_caller Sample.lenient Sample.cy
             {[ "post" := VInt 2; "body" := VStr "Me too.";
                "is_approved" := VBool true ]} Sample.db).
  - apply (proj2 (comment_create_by_caller Sample.lenient Sample.cy
             {[ "post" := VInt 2; "body" := VStr "Me too.";
                "is_approved" := VBool true ]} Sample.db)
             (mkResponse 201 (DComment (mkComment 3 2 3 "Me too." false)))).
    vm_compute. reflexivity.
Defined.

(** C10. The comment views look a comment up among all comments, whatever
    the state of its post.  So when the post of a stored comment is
    unpublished, the comment's author and any staff caller still retrieve,
    update and delete the comment by its id: the retrieve returns the
    comment, the delete removes it, and a valid PUT or PATCH stores and
    returns the comment with the validated data assigned ([is_approved]
    left out of the data unless the caller is staff), which is then what a
    lookup of the id finds.  The same caller, unless staff, gets [NotFound]
    for the post itself. *)
Theorem comment_under_hidden_post slugify now validate (u : User) (pk : Z)
    (db : Store) (c : Comment) (p : Post) :
  primary_keys_unique db →
  get_comment pk (CommentDetailView.queryset db) = Some c →
  p ∈ posts db → post_id p = comment_post c → is_published p = false →
  is_staff u = true ∨ user_pk u = Some (comment_author c) →
  CommentDetailView.queryset db = comments db
  ∧ CommentDetailView.dispatch validate u pk Retrieve db
    = (Ok (mkResponse 200 (DComment c)), db)
  ∧ CommentDetailView.dispatch validate u pk Destroy db
    = (Ok (mkResponse 204 DNone), delete_comment c db)
  ∧ (∀ r partial d vd,
       update_of r = Some (partial, d) → validate db partial d = Some vd →
       CommentDetailView.dispatch validate u pk r db
       = (Ok (mkResponse 200
                (DComment
                   (Comment_assign
                      (if is_staff u then vd else delete "is_approved" vd)
                      c))),
          save_comment
            (Comment_assign
               (if is_staff u then vd else delete "is_approved" vd) c) db)
       ∧ get_comment pk
           (comments
              (save_comment
                 (Comment_assign
                    (if is_staff u then vd else delete "is_approved" vd) c)
                 db))
         = Some
             (Comment_assign
                (if is_staff u then vd else delete "is_approved" vd) c)
       ∧ comment_body
           (Comment_assign
              (if is_staff u then vd else delete "is_approved" vd) c)
         = field_str vd "body" (comment_body c))
  ∧ (is_staff u = false →
     PostViewSet.dispatch slugify now u
       (PostViewSet.Detail (comment_post c) Retrieve) db
     = (Raise NotFound, db)).
Proof.
  intros [Hnd _] Hc Hin Hid Hp Hmay. unfold CommentDetailView.queryset in Hc.
  apply may_touch_spec in Hmay.
  split; [done|]. split; [|split; [|split]].
  - by rewrite (comment_dispatch_found validate u pk _ db c Hc), Hmay.
  - by rewrite (comment_dispatch_found validate u pk _ db c Hc), Hmay.
  - intros r partial d vd Hr Hvd.
    rewrite (comment_dispatch_found validate u pk _ db c Hc), Hmay.
    split; [|split].
    + destruct r as [|d'|d'|]; try done; injection Hr as <- <-;
        by rewrite Hvd.
    + by apply (save_comment_lookup pk c).
    + destruct (is_staff u); [done|]. apply Comment_assign_stripped.
  - intros Hu. rewrite <- Hid. by apply retrieve_hidden.
Qed.

Lemma comment_under_hidden_post_witness :
  CommentDetailView.dispatch Sample.lenient Sample.bob 1 Retrieve Sample.db
  = (Ok (mkResponse 200 (DComment Sample.by_bob)), Sample.db)
  ∧ CommentDetailView.dispatch Sample.lenient Sample.bob 1 Destroy Sample.db
    = (Ok (mkResponse 204 DNone), delete_comment Sample.by_bob Sample.db)
  ∧ (CommentDetailView.dispatch Sample.lenient Sample.bob 1
       (PartialUpdate {[ "is_approved" := VBool true; "body" := VStr "x" ]})
       Sample.db
     = (Ok (mkResponse 200
              (DComment
                 (Comment_assign
                    (if is_staff Sample.bob
                     then {[ "is_approved" := VBool true;
                             "body" := VStr "x" ]}
                     else delete "is_approved"
                            {[ "is_approved" := VBool true;
                               "body" := VStr "x" ]})
                    Sample.by_bob))),
        save_comment
          (Comment_assign
             (if is_staff Sample.bob
              then {[ "is_approved" := VBool true; "body" := VStr "x" ]}
              else delete "is_approved"
                     {[ "is_approved" := VBool true; "body" := VStr "x" ]})
             Sample.by_bob) Sample.db)
     ∧ get_comment 1
         (comments
            (save_comment
               (Comment_assign
                  (if is_staff Sample.bob
                   then {[ "is_approved" := VBool true;
                           "body" := VStr "x" ]}
                   else delete "is_approved"
                          {[ "is_approved" := VBool true;
                             "body" := VStr "x" ]})
                  Sample.by_bob) Sample.db))
       = Some
           (Comment_assign
              (if is_staff Sample.bob
               then {[ "is_approved" := VBool true; "body" := VStr "x" ]}
               else delete "is_approved"
                      {[ "is_approved" := VBool true; "body" := VStr "x" ]})
              Sample.by_bob)
     ∧ comment_body
         (Comment_assign
            (if is_staff Sample.bob
             then {[ "is_approved" := VBool true; "body" := VStr "x" ]}
             else delete "is_approved"
                    {[ "is_approved" := VBool true; "body" := VStr "x" ]})
            Sample.by_bob)
       = field_str {[ "is_approved" := VBool true; "body" := VStr "x" ]}
           "body" (comment_body Sample.by_bob))
  ∧ Comment_assign
      (delete "is_approved"
         {[ "is_approved" := VBool true; "body" := VStr "x" ]})
      Sample.by_bob
    = mkComment 1 2 2 "x" false
  ∧ PostViewSet.dispatch Sample.slugify 300 Sample.bob
      (PostViewSet.Detail 2 Retrieve) Sample.db
    = (Raise NotFound, Sample.db).
Proof.
  assert (primary_keys_unique Sample.db) as Hk by (split; by_computation).
  assert (Sample.draft ∈ posts Sample.db) as Hin by by_computation.
  destruct (comment_under_hidden_post Sample.slugify 300 Sample.lenient
              Sample.bob 1 Sample.db Sample.by_bob Sample.draft
              Hk eq_refl Hin eq_refl eq_refl (or_intror eq_refl))
    as (_ & Hget & Hdel & Hupd & Hpost).
  split; [exact Hget|]. split; [exact Hdel|].
  split;
    [exact (Hupd (PartialUpdate
                    {[ "is_approved" := VBool true; "body" := VStr "x" ]})
              true {[ "is_approved" := VBool true; "body" := VStr "x" ]}
              {[ "is_approved" := VBool true; "body" := VStr "x" ]}
              eq_refl eq_refl)|].
  split; [vm_compute; reflexivity | exact (Hpost eq_refl)].
Defined.

(** * Further properties of the views *)

(** ** The query set of [PostViewSet] *)

Section order_by_filter.
Context {A : Type} (key : A → Z) (P : A → Prop) `{!∀ x, Decision (P x)}.

Lemma insert_desc_front x l :
  Forall (λ y, key y ≤ key x) l → insert_desc key x l = x :: l.
Proof.
  destruct 1 as [|y l Hy _]; simpl; [done|].
  by rewrite bool_decide_eq_true_2.
Qed.

Lemma order_by_desc_strongly_sorted l :
  StronglySorted (λ x y, key y ≤ key x) (order_by_desc key l).
Proof.
  apply Sorted_StronglySorted.
  - intros x y z ? ?. lia.
  - apply order_by_desc_sorted.
Qed.

(** Into a sorted list, inserting a kept row and filtering commute. *)
Lemma filter_insert_desc x l :
  StronglySorted (λ x y, key y ≤ key x) l →
  filter P (insert_desc key x l)
  = if decide (P x) then insert_desc key x (filter P l) else filter P l.
Proof.
  induction 1 as [|y l Hl IH Hy]; simpl.
  - rewrite filter_cons. by case_decide.
  - case_bool_decide as Hle.
    + rewrite !filter_cons. destruct (decide (P x)); [|done].
      destruct (decide (P y)); simpl.
      * by rewrite bool_decide_eq_true_2.
      * symmetry. apply insert_desc_front.
        apply Forall_forall. intros z [_ Hz]%list_elem_of_filter.
        rewrite Forall_forall in Hy. specialize (Hy z Hz). simpl in Hy. lia.
    + rewrite !filter_cons, IH.
      destruct (decide (P x)), (decide (P y)); simpl; try done.
      by rewrite bool_decide_eq_false_2.
Qed.

Lemma filter_order_by_desc l :
  filter P (order_by_desc key l) = order_by_desc key (filter P l).
Proof.
  induction l as [|x l IH]; simpl; [done|].
  rewrite filter_insert_desc by apply order_by_desc_strongly_sorted.
  rewrite filter_cons, IH. by destruct (decide (P x)).
Qed.
End order_by_filter.

(** X1. What a caller who is not staff gets is what staff get with the
    unpublished posts left out, in the same order, for every action (the
    ordered list included); so two callers who are not staff, anonymous or
    not, get the same query set. *)
Theorem get_queryset_nonstaff_is_filtered (u s : User) (a : Action)
    (db : Store) :
  is_staff u = false → is_staff s = true →
  PostViewSet.get_queryset u a db
  = filter (λ p, is_published p = true) (PostViewSet.get_queryset s a db)
  ∧ ∀ u', is_staff u' = false →
          PostViewSet.get_queryset u' a db = PostViewSet.get_queryset u a db.
Proof.
  intros Hu Hs. unfold PostViewSet.get_queryset, select_related,
    prefetch_related, filter_is_published.
  rewrite Hu, Hs. split.
  - destruct a; try done. by rewrite filter_order_by_desc.
  - intros u' ->. done.
Qed.

Lemma get_queryset_nonstaff_is_filtered_witness :
  PostViewSet.get_queryset AnonymousUser act_list Sample.db
  = filter (λ p, is_published p = true)
      (PostViewSet.get_queryset Sample.ann act_list Sample.db)
  ∧ ∀ u', is_staff u' = false →
          PostViewSet.get_queryset u' act_list Sample.db
          = PostViewSet.get_queryset AnonymousUser act_list Sample.db.
Proof.
  apply (get_queryset_nonstaff_is_filtered AnonymousUser Sample.ann act_list
           Sample.db); reflexivity.
Defined.

(** ** Requests on posts *)

Lemma fresh_id_above ids x : x ∈ ids → x < fresh_id ids.
Proof.
  unfold fresh_id. induction ids as [|y ids IH]; simpl.
  - by intros ?%elem_of_nil.
  - intros [->|Hx]%elem_of_cons; [lia|]. specialize (IH Hx). lia.
Qed.

Lemma get_post_snoc pk l p :
  (∀ q, q ∈ l → post_id q ≠ pk) → post_id p = pk →
  get_post pk (l ++ [p]) = Some p.
Proof.
  intros Hl Hp. unfold get_post. induction l as [|q l IH]; simpl.
  - by rewrite bool_decide_eq_true_2.
  - rewrite bool_decide_eq_false_2 by (apply Hl; left).
    apply IH. intros r Hr. apply Hl. by right.
Qed.

Lemma get_post_snoc_visible (b : bool) l p :
  (∀ q, q ∈ l → post_id q ≠ post_id p) →
  (if b then True else is_published p = true) →
  get_post (post_id p)
    (if b then l ++ [p]
     else filter (λ q, is_published q = true) (l ++ [p]))
  = Some p.
Proof.
  intros Hl Hp. destruct b.
  - by apply get_post_snoc.
  - rewrite filter_app, filter_cons_True, filter_nil by done.
    apply get_post_snoc; [|done].
    intros q [_ Hq]%list_elem_of_filter. by apply Hl.
Qed.

Lemma post_patch_is_put_aux slugify now u pk d db :
  PostViewSet.dispatch slugify now u
    (PostViewSet.Detail pk (PartialUpdate d)) db
  = PostViewSet.dispatch slugify now u (PostViewSet.Detail pk (Update d)) db.
Proof.
  rewrite !post_dispatch_eq. unfold PostViewSet.partial_update.
  rewrite !post_update_eq, !post_get_object_eq. reflexivity.
Qed.

(** X2. On a post a PATCH is handled as a PUT: the same data gives the same
    answer and the same store, so a PATCH that leaves a required field out
    is invalid like the PUT would be. *)
Theorem post_patch_is_put slugify now (u : User) (pk : Z) (d : fields)
    (db : Store) :
  PostViewSet.dispatch slugify now u
    (PostViewSet.Detail pk (PartialUpdate d)) db
  = PostViewSet.dispatch slugify now u (PostViewSet.Detail pk (Update d)) db.
Proof. apply post_patch_is_put_aux. Qed.

(** X3. A request on posts that ends in an exception leaves the store as it
    was, and so does every list and every retrieve: the rows change only
    when a create, an update or a delete succeeds. *)
Theorem post_store_changes_only_on_success slugify now (u : User)
    (r : PostViewSet.Request) (db : Store) :
  (∀ e, (PostViewSet.dispatch slugify now u r db).1 = Raise e →
        (PostViewSet.dispatch slugify now u r db).2 = db)
  ∧ (PostViewSet.action_of r = act_list
     ∨ PostViewSet.action_of r = act_retrieve →
     (PostViewSet.dispatch slugify now u r db).2 = db).
Proof.
  rewrite post_dispatch_eq.
  destruct (IsAdminOrReadOnly_allows u (PostViewSet.action_of r));
    [|by split].
  destruct r as [|d|pk [|d|d|]]; unfold PostViewSet.partial_update;
    rewrite ?post_list_eq, ?post_create_eq, ?post_retrieve_eq,
      ?post_update_eq, ?post_destroy_eq, ?post_get_object_eq.
  - by split.
  - split; [|by intros [|]].
    destruct (PostWriteSerializer_validate u false d); [|done].
    by destruct (user_pk u).
  - by destruct (get_post _ _).
  - split; [|by intros [|]].
    destruct (get_post _ _); [|done].
    destruct (IsAdminOrReadOnly_allows u act_update); [|done].
    by destruct (PostWriteSerializer_validate u false d).
  - split; [|by intros [|]].
    destruct (get_post _ _); [|done].
    destruct (IsAdminOrReadOnly_allows u act_partial_update); [|done].
    by destruct (PostWriteSerializer_validate u false d).
  - split; [|by intros [|]].
    destruct (get_post _ _); [|done].
    by destruct (IsAdminOrReadOnly_allows u act_destroy).
Qed.

Lemma post_store_changes_only_on_success_witness :
  (PostViewSet.dispatch Sample.slugify 300 Sample.bob
     (PostViewSet.Create {[ "title" := VStr "" ]}) Sample.db).2
  = Sample.db.
Proof.
  apply (proj1 (post_store_changes_only_on_success Sample.slugify 300
                  Sample.bob (PostViewSet.Create {[ "title" := VStr "" ]})
                  Sample.db) ValidationError).
  vm_compute. reflexivity.
Defined.

(** X4. The post a create has stored is found under the id of the returned
    url: a caller who is staff, and anyone if the post is published, gets its
    detail from a retrieve of that id; a caller who is not staff gets
    [NotFound] as long as it is unpublished, its own author included. *)
Theorem post_create_then_retrieve slugify now (u u' : User) (d : fields)
    (db db' : Store) (resp : Response) :
  PostViewSet.dispatch slugify now u (PostViewSet.Create d) db
  = (Ok resp, db') →
  ∃ p : Post,
    posts db' = posts db ++ [p]
    ∧ (is_staff u' = true ∨ is_published p = true →
       PostViewSet.dispatch slugify now u'
         (PostViewSet.Detail (post_id p) Retrieve) db'
       = (Ok (mkResponse 200 (DDetail (PostDetailSerializer db' p))), db'))
    ∧ (is_staff u' = false → is_published p = false →
       PostViewSet.dispatch slugify now u'
         (PostViewSet.Detail (post_id p) Retrieve) db'
       = (Raise NotFound, db')).
Proof.
  rewrite post_dispatch_eq, post_create_eq.
  destruct (IsAdminOrReadOnly_allows _ _); [|done].
  destruct (PostWriteSerializer_validate u false d) as [vd|]; [|done].
  destruct (user_pk u) as [k|]; [|done].
  cbn zeta. intros [= <- <-].
  set (p := mkPost _ _ _ _ _ _ _).
  assert (∀ q, q ∈ posts db → post_id q ≠ post_id p) as Hfresh.
  { intros q Hq Heq.
    assert (post_id q < fresh_id (post_id <$> posts db)) as Hlt
      by by apply fresh_id_above, list_elem_of_fmap_2.
    subst p. cbn in Heq. lia. }
  exists p. split; [done|].
  rewrite !post_dispatch_eq, !post_retrieve_eq.
  cbn [PostViewSet.action_of detail_action IsAdminOrReadOnly_allows].
  unfold PostViewSet.get_queryset, select_related, prefetch_related,
    filter_is_published, insert_post. cbn [posts].
  split.
  - intros Hvis. rewrite get_post_snoc_visible; [done|done|].
    destruct (is_staff u'); [done|]. by destruct Hvis.
  - intros -> Hp. rewrite filter_app, filter_cons_False, filter_nil by
      (rewrite Hp; done).
    rewrite app_nil_r.
    assert (get_post (post_id p)
              (filter (λ q, is_published q = true) (posts db)) = None) as ->;
      [|done].
    apply get_post_None. intros q [_ Hq]%list_elem_of_filter. by apply Hfresh.
Qed.

Lemma post_create_then_retrieve_witness :
  ∃ p : Post,
    posts (insert_post (mkPost 4 "T" "T" "B" 2 false 300) Sample.db)
    = posts Sample.db ++ [p]
    ∧ (is_staff Sample.bob = true ∨ is_published p = true →
       PostViewSet.dispatch Sample.slugify 300 Sample.bob
         (PostViewSet.Detail (post_id p) Retrieve)
         (insert_post (mkPost 4 "T" "T" "B" 2 false 300) Sample.db)
       = (Ok (mkResponse 200
                (DDetail
                   (PostDetailSerializer
                      (insert_post (mkPost 4 "T" "T" "B" 2 false 300)
                         Sample.db) p))),
          insert_post (mkPost 4 "T" "T" "B" 2 false 300) Sample.db))
    ∧ (is_staff Sample.bob = false → is_published p = false →
       PostViewSet.dispatch Sample.slugify 300 Sample.bob
         (PostViewSet.Detail (post_id p) Retrieve)
         (insert_post (mkPost 4 "T" "T" "B" 2 false 300) Sample.db)
       = (Raise NotFound,
          insert_post (mkPost 4 "T" "T" "B" 2 false 300) Sample.db)).
Proof.
  apply (post_create_then_retrieve Sample.slugify 300 Sample.bob Sample.bob
           {[ "title" := VStr "T"; "body" := VStr "B" ]} Sample.db _
           (mkResponse 201
              (DDict [("url", "/posts/T-4/");
                      ("message", "Post created successfully.")]))).
  vm_compute. reflexivity.
Defined.

Lemma get_post_filter_ne pk k l :
  k ≠ pk →
  get_post k (filter (λ r, post_id r ≠ pk) l) = get_post k l.
Proof.
  intros Hk. unfold get_post. induction l as [|q l IH]; simpl; [done|].
  rewrite filter_cons. case_decide as Hq; simpl.
  - by rewrite IH.
  - rewrite IH. rewrite bool_decide_eq_false_2; [done|]. naive_solver.
Qed.

(** X5. Once a delete of a post has succeeded, no row with that id is left:
    a retrieve of the id gives [NotFound] to every caller, staff included,
    while a lookup of any other id finds what it found before. *)
Theorem post_destroy_then_not_found slugify now (u : User) (pk : Z)
    (db db' : Store) (resp : Response) :
  PostViewSet.dispatch slugify now u (PostViewSet.Detail pk Destroy) db
  = (Ok resp, db') →
  resp = mkResponse 204 DNone
  ∧ (∀ u', PostViewSet.dispatch slugify now u'
             (PostViewSet.Detail pk Retrieve) db'
           = (Raise NotFound, db'))
  ∧ (∀ k, k ≠ pk → get_post k (posts db') = get_post k (posts db)).
Proof.
  rewrite post_dispatch_eq, post_destroy_eq, post_get_object_eq.
  cbn [PostViewSet.action_of detail_action].
  destruct (IsAdminOrReadOnly_allows u act_destroy); [|done].
  destruct (get_post _ _) as [p|] eqn:Hp; [|done].
  intros [= <- <-]. apply get_post_Some in Hp as [_ <-].
  split; [done|]. split.
  - intros u'. rewrite post_dispatch_eq, post_retrieve_eq.
    cbn [PostViewSet.action_of detail_action IsAdminOrReadOnly_allows].
    assert (get_post (post_id p)
              (PostViewSet.get_queryset u' act_retrieve (delete_post p db))
            = None) as ->; [|done].
    apply get_post_None. intros q [Hq _]%elem_of_get_queryset.
    unfold delete_post in Hq. cbn [posts] in Hq.
    by apply list_elem_of_filter in Hq as [? _].
  - intros k Hk. unfold delete_post. cbn [posts].
    by apply get_post_filter_ne.
Qed.

Lemma post_destroy_then_not_found_witness :
  mkResponse 204 DNone = mkResponse 204 DNone
  ∧ (∀ u', PostViewSet.dispatch Sample.slugify 300 u'
             (PostViewSet.Detail 2 Retrieve)
             (delete_post Sample.draft Sample.db)
           = (Raise NotFound, delete_post Sample.draft Sample.db))
  ∧ (∀ k, k ≠ 2 →
          get_post k (posts (delete_post Sample.draft Sample.db))
          = get_post k (posts Sample.db)).
Proof.
  apply (post_destroy_then_not_found Sample.slugify 300 Sample.ann 2
           Sample.db).
  vm_compute. reflexivity.
Defined.

(** ** Requests on comments *)

Lemma get_comment_None pk qs :
  get_comment pk qs = None ↔ ∀ c, c ∈ qs → comment_id c ≠ pk.
Proof.
  unfold get_comment. split.
  - intros H c Hin Hpk. apply list_elem_of_In in Hin.
    pose proof (find_none _ _ H c Hin) as Hn. simpl in Hn.
    by apply bool_decide_eq_false in Hn.
  - intros H. induction qs as [|q qs IH]; simpl; [done|].
    rewrite bool_decide_eq_false_2; [|apply H; left].
    apply IH. intros c Hc. apply H. by right.
Qed.

Lemma get_comment_snoc pk l c :
  (∀ q, q ∈ l → comment_id q ≠ pk) → comment_id c = pk →
  get_comment pk (l ++ [c]) = Some c.
Proof.
  intros Hl Hc. unfold get_comment. induction l as [|q l IH]; simpl.
  - by rewrite bool_decide_eq_true_2.
  - rewrite bool_decide_eq_false_2 by (apply Hl; left).
    apply IH. intros r Hr. apply Hl. by right.
Qed.

Lemma get_comment_filter_ne pk k l :
  k ≠ pk →
  get_comment k (filter (λ r, comment_id r ≠ pk) l) = get_comment k l.
Proof.
  intros Hk. unfold get_comment. induction l as [|q l IH]; simpl; [done|].
  rewrite filter_cons. case_decide as Hq; simpl.
  - by rewrite IH.
  - rewrite IH. rewrite bool_decide_eq_false_2; [done|]. naive_solver.
Qed.

Lemma comment_dispatch_missing validate u pk r db :
  get_comment pk (comments db) = None →
  CommentDetailView.dispatch validate u pk r db = (Raise NotFound, db).
Proof.
  intros Hc. rewrite comment_dispatch_eq.
  destruct r; unfold CommentDetailView.partial_update;
    by rewrite ?comment_retrieve_eq, ?comment_update_eq, ?comment_destroy_eq,
      comment_get_object_eq, Hc.
Qed.

(** X6. What [perform_update] does for a caller who is not staff is what it
    does for staff once [is_approved] is taken out of the validated data:
    the same instance is returned and the same row is written.  When the
    data does not hold [is_approved], the two do the same. *)
Theorem perform_update_strips (u s : User) (ser : Serializer Comment)
    (db : Store) :
  is_staff u = false → is_staff s = true →
  CommentDetailView.perform_update u ser db
  = CommentDetailView.perform_update s
      (mkSerializer (instance ser)
         (delete "is_approved" (validated_data ser))) db
  ∧ (validated_data ser !! "is_approved" = None →
     CommentDetailView.perform_update u ser db
     = CommentDetailView.perform_update s ser db).
Proof.
  intros Hu Hs. unfold CommentDetailView.perform_update,
    CommentDetailView.strip_is_approved.
  rewrite Hu, Hs. cbn [negb]. destruct ser as [inst vd].
  cbn [instance validated_data]. split.
  - case_decide as Hin; [done|].
    rewrite delete_id; [done|]. by apply eq_None_not_Some.
  - intros Hnone. case_decide as Hin; [|done].
    rewrite Hnone in Hin. by destruct Hin.
Qed.

Lemma perform_update_strips_witness :
  let ser :=
    mkSerializer (Some Sample.by_bob)
      {[ "is_approved" := VBool true; "body" := VStr "x" ]} in
  CommentDetailView.perform_update Sample.bob ser Sample.db
  = CommentDetailView.perform_update Sample.ann
      (mkSerializer (instance ser)
         (delete "is_approved" (validated_data ser))) Sample.db.
Proof.
  intros ser.
  exact (proj1 (perform_update_strips Sample.bob Sample.ann ser Sample.db
                  eq_refl eq_refl)).
Defined.

(** X7. A PUT or a PATCH on a comment writes at most the row it names: the
    posts are as before, the comments keep their ids and their order, and a
    lookup of any other id finds the comment it found before, however the
    request ends. *)
Theorem comment_update_frame validate (u : User) (pk : Z) (r : DetailRequest)
    (partial : bool) (d : fields) (db : Store) :
  update_of r = Some (partial, d) →
  posts (CommentDetailView.dispatch validate u pk r db).2 = posts db
  ∧ comment_id <$> comments (CommentDetailView.dispatch validate u pk r db).2
    = comment_id <$> comments db
  ∧ ∀ k, k ≠ pk →
         get_comment k
           (comments (CommentDetailView.dispatch validate u pk r db).2)
         = get_comment k (comments db).
Proof.
  intros Hr.
  destruct (get_comment pk (comments db)) as [c|] eqn:Hc;
    [|by rewrite comment_dispatch_missing].
  rewrite (comment_dispatch_found validate u pk r db c Hc).
  destruct (is_staff u || _); [|done].
  assert (∀ c', comment_id c' = pk →
            posts (save_comment c' db) = posts db
            ∧ comment_id <$> comments (save_comment c' db)
              = comment_id <$> comments db
            ∧ ∀ k, k ≠ pk →
                   get_comment k (comments (save_comment c' db))
                   = get_comment k (comments db)) as Hsave.
  { intros c' Hid. unfold save_comment. cbn [posts comments].
    split; [done|]. split.
    - rewrite <- list_fmap_compose. apply list_fmap_ext.
      intros i x _. simpl. by case_bool_decide.
    - intros k Hk. rewrite get_comment_fmap by (intros x; by case_bool_decide).
      destruct (get_comment k (comments db)) as [x|] eqn:Hx; [|done].
      apply get_comment_Some in Hx as [_ Hx]. cbn.
      rewrite bool_decide_eq_false_2; [done|]. congruence. }
  apply get_comment_Some in Hc as [_ Hid].
  destruct r as [|d'|d'|]; try done;
    (destruct (validate db _ d') as [vd|]; [|done]);
    cbn zeta; cbn [snd]; by apply Hsave.
Qed.

Lemma comment_update_frame_witness :
  posts (CommentDetailView.dispatch Sample.lenient Sample.bob 1
           (Update {[ "post" := VInt 2; "body" := VStr "x" ]}) Sample.db).2
  = posts Sample.db
  ∧ comment_id
      <$> comments
            (CommentDetailView.dispatch Sample.lenient Sample.bob 1
               (Update {[ "post" := VInt 2; "body" := VStr "x" ]})
               Sample.db).2
    = comment_id <$> comments Sample.db
  ∧ ∀ k, k ≠ 1 →
         get_comment k
           (comments
              (CommentDetailView.dispatch Sample.lenient Sample.bob 1
                 (Update {[ "post" := VInt 2; "body" := VStr "x" ]})
                 Sample.db).2)
         = get_comment k (comments Sample.db).
Proof.
  apply (comment_update_frame Sample.lenient Sample.bob 1
           (Update {[ "post" := VInt 2; "body" := VStr "x" ]}) false
           {[ "post" := VInt 2; "body" := VStr "x" ]} Sample.db).
  reflexivity.
Defined.

(** X8. A request on comments that ends in an exception leaves the store
    as it was, be it a create or a request on one comment; and a retrieve
    never writes. *)
Theorem comment_store_changes_only_on_success validate (u : User) (pk : Z)
    (r : DetailRequest) (d : fields) (db : Store) :
  (∀ e, (CommentCreateView.dispatch validate u d db).1 = Raise e →
        (CommentCreateView.dispatch validate u d db).2 = db)
  ∧ (∀ e, (CommentDetailView.dispatch validate u pk r db).1 = Raise e →
          (CommentDetailView.dispatch validate u pk r db).2 = db)
  ∧ (CommentDetailView.dispatch validate u pk Retrieve db).2 = db.
Proof.
  split; [|split].
  - rewrite comment_create_eq. destruct u as [|k s]; [done|].
    destruct (validate db false d) as [vd|]; [|done].
    by destruct (_ !! "post") as [[]|].
  - destruct (get_comment pk (comments db)) as [c|] eqn:Hc;
      [|by rewrite comment_dispatch_missing].
    rewrite (comment_dispatch_found validate u pk r db c Hc).
    destruct (is_staff u || _); [|done].
    destruct r as [|d'|d'|]; try done; by destruct (validate db _ d').
  - destruct (get_comment pk (comments db)) as [c|] eqn:Hc;
      [|by rewrite comment_dispatch_missing].
    rewrite (comment_dispatch_found validate u pk Retrieve db c Hc).
    by destruct (is_staff u || _).
Qed.

Lemma comment_store_changes_only_on_success_witness :
  (CommentDetailView.dispatch Sample.lenient Sample.cy 1 Destroy Sample.db).2
  = Sample.db.
Proof.
  apply (proj1 (proj2 (comment_store_changes_only_on_success Sample.lenient
                         Sample.cy 1 Destroy ∅ Sample.db))
           PermissionDenied).
  reflexivity.
Defined.

(** X9. Once a delete of a comment has succeeded, every later request on
    its id, by any caller, gives [NotFound]; the posts are untouched and a
    lookup of any other id finds the comment it found before. *)
Theorem comment_destroy_then_not_found validate (u : User) (pk : Z)
    (db db' : Store) (resp : Response) :
  CommentDetailView.dispatch validate u pk Destroy db = (Ok resp, db') →
  resp = mkResponse 204 DNone
  ∧ posts db' = posts db
  ∧ (∀ u' r, CommentDetailView.dispatch validate u' pk r db'
             = (Raise NotFound, db'))
  ∧ (∀ k, k ≠ pk → get_comment k (comments db') = get_comment k (comments db)).
Proof.
  destruct (get_comment pk (comments db)) as [c|] eqn:Hc;
    [|by rewrite comment_dispatch_missing].
  rewrite (comment_dispatch_found validate u pk Destroy db c Hc).
  destruct (is_staff u || _); [|done].
  intros [= <- <-]. apply get_comment_Some in Hc as [_ <-].
  split; [done|]. split; [done|]. split.
  - intros u' r. apply comment_dispatch_missing.
    apply get_comment_None. unfold delete_comment. cbn [comments].
    by intros q [? _]%list_elem_of_filter.
  - intros k Hk. unfold delete_comment. cbn [comments].
    by apply get_comment_filter_ne.
Qed.

Lemma comment_destroy_then_not_found_witness :
  mkResponse 204 DNone = mkResponse 204 DNone
  ∧ posts (delete_comment Sample.by_bob Sample.db) = posts Sample.db
  ∧ (∀ u' r, CommentDetailView.dispatch Sample.lenient u' 1 r
               (delete_comment Sample.by_bob Sample.db)
             = (Raise NotFound, delete_comment Sample.by_bob Sample.db))
  ∧ (∀ k, k ≠ 1 →
          get_comment k (comments (delete_comment Sample.by_bob Sample.db))
          = get_comment k (comments Sample.db)).
Proof.
  apply (comment_destroy_then_not_found Sample.lenient Sample.bob 1
           Sample.db).
  reflexivity.
Defined.

(** X10. The comment a create has stored is the caller's own: with the id
    of the response, the caller who created it retrieves that very comment,
    and so does any staff caller. *)
Theorem comment_create_then_retrieve validate (u u' : User) (d : fields)
    (db db' : Store) (resp : Response) :
  CommentCreateView.dispatch validate u d db = (Ok resp, db') →
  u' = u ∨ is_staff u' = true →
  ∃ c : Comment,
    data resp = DComment c
    ∧ CommentDetailView.dispatch validate u' (comment_id c) Retrieve db'
      = (Ok (mkResponse 200 (DComment c)), db').
Proof.
  rewrite comment_create_eq. destruct u as [|k s]; [done|].
  destruct (validate db false d) as [vd|]; [|done].
  destruct (_ !! "post") as [[| |z|]|] eqn:Hpost; try done.
  cbn zeta. intros [= <- <-] Hwho.
  set (c := Comment_assign _ _).
  assert (comment_id c = fresh_id (comment_id <$> comments db)) as Hid by done.
  assert (comment_author c = k) as Hauthor.
  { subst c. unfold Comment_assign, field_int. cbn.
    rewrite lookup_delete_ne by done. by rewrite author_kwarg_lookup. }
  exists c. split; [done|].
  assert (get_comment (comment_id c) (comments (insert_comment c db))
          = Some c) as Hget.
  { unfold insert_comment. cbn [comments]. apply get_comment_snoc; [|done].
    intros q Hq Heq.
    assert (comment_id q < fresh_id (comment_id <$> comments db))
      by by apply fresh_id_above, list_elem_of_fmap_2.
    lia. }
  rewrite (comment_dispatch_found validate u' _ Retrieve _ c Hget).
  assert (is_staff u' || bool_decide (user_pk u' = Some (comment_author c))
          = true) as ->; [|done].
  apply may_touch_spec. destruct Hwho as [->|Hs]; [right|by left].
  by rewrite Hauthor.
Qed.

Lemma comment_create_then_retrieve_witness :
  ∃ c : Comment,
    DComment (mkComment 3 2 3 "Me too." false) = DComment c
    ∧ CommentDetailView.dispatch Sample.lenient Sample.cy (comment_id c)
        Retrieve
        (insert_comment (mkComment 3 2 3 "Me too." false) Sample.db)
      = (Ok (mkResponse 200 (DComment c)),
         insert_comment (mkComment 3 2 3 "Me too." false) Sample.db).
Proof.
  apply (comment_create_then_retrieve Sample.lenient Sample.cy Sample.cy
           {[ "post" := VInt 2; "body" := VStr "Me too." ]} Sample.db _
           (mkResponse 201 (DComment (mkComment 3 2 3 "Me too." false)))).
  - vm_compute. reflexivity.
  - by left.
Defined.

(** ** More on posts: what an update writes, what a url names *)

Lemma get_post_fmap (f : Post → Post) pk qs :
  (∀ r, post_id (f r) = post_id r) →
  get_post pk (f <$> qs) = f <$> get_post pk qs.
Proof.
  intros Hf. unfold get_post.
  induction qs as [|r qs IH]; simpl; [done|].
  rewrite Hf. by case_bool_decide.
Qed.

(** X11. A PUT or a PATCH on a post writes at most the row it names: the
    comments are as before, the posts keep their ids and their order, and a
    lookup of any other id finds the post it found before, however the
    request ends. *)
Theorem post_update_frame slugify now (u : User) (pk : Z) (r : DetailRequest)
    (partial : bool) (d : fields) (db : Store) :
  update_of r = Some (partial, d) →
  comments (PostViewSet.dispatch slugify now u (PostViewSet.Detail pk r) db).2
  = comments db
  ∧ post_id
      <$> posts
            (PostViewSet.dispatch slugify now u (PostViewSet.Detail pk r) db).2
    = post_id <$> posts db
  ∧ ∀ k, k ≠ pk →
         get_post k
           (posts
              (PostViewSet.dispatch slugify now u (PostViewSet.Detail pk r)
                 db).2)
         = get_post k (posts db).
Proof.
  intros Hr.
  assert (PostViewSet.dispatch slugify now u (PostViewSet.Detail pk r) db
          = PostViewSet.dispatch slugify now u
              (PostViewSet.Detail pk (Update d)) db) as ->.
  { destruct r as [|d'|d'|]; try done; injection Hr as <- <-;
      [reflexivity | apply post_patch_is_put_aux]. }
  rewrite post_dispatch_eq.
  cbn [PostViewSet.action_of detail_action].
  destruct (IsAdminOrReadOnly_allows u act_update); [|done].
  rewrite post_update_eq, post_get_object_eq.
  destruct (get_post _ _) as [p|] eqn:Hp; [|done].
  destruct (IsAdminOrReadOnly_allows u act_update); [|done].
  destruct (PostWriteSerializer_validate u false d) as [vd|]; [|done].
  apply get_post_Some in Hp as [_ Hid]. cbn [snd].
  unfold save_post. cbn [posts comments].
  change (post_id (Post_assign vd p)) with (post_id p).
  assert (∀ x, post_id (if bool_decide (post_id x = post_id p)
                        then Post_assign vd p else x) = post_id x) as Hkeep.
  { intros x. case_bool_decide; [|done]. simpl. congruence. }
  split; [done|]. split.
  - rewrite <- list_fmap_compose. apply list_fmap_ext.
    intros i x _. apply Hkeep.
  - intros k Hk. rewrite get_post_fmap by apply Hkeep.
    destruct (get_post k (posts db)) as [x|] eqn:Hx; [|done].
    apply get_post_Some in Hx as [_ Hx]. cbn.
    rewrite bool_decide_eq_false_2; [done|]. congruence.
Qed.

Lemma post_update_frame_witness :
  comments
    (PostViewSet.dispatch Sample.slugify 300 Sample.ann
       (PostViewSet.Detail 2
          (Update {[ "title" := VStr "T"; "body" := VStr "B" ]}))
       Sample.db).2
  = comments Sample.db.
Proof.
  apply (post_update_frame Sample.slugify 300 Sample.ann 2
           (Update {[ "title" := VStr "T"; "body" := VStr "B" ]}) false
           {[ "title" := VStr "T"; "body" := VStr "B" ]} Sample.db).
  reflexivity.
Defined.

Lemma dashless_digit (n : N) (s : string) :
  dashless s = true → dashless (String (pretty_N_char n) s) = true.
Proof.
  intros Hs. cbn [dashless]. rewrite Hs, andb_true_r.
  unfold pretty_N_char. by repeat case_match.
Qed.

Lemma dashless_pretty_N_go (x : N) (s : string) :
  dashless s = true → dashless (pretty_N_go x s) = true.
Proof.
  revert s. induction (N.lt_wf_0 x) as [x _ IH]; intros s Hs.
  assert (x = 0 ∨ 0 < x)%N as [->|Hx] by lia.
  - by rewrite pretty_N_go_0.
  - rewrite pretty_N_go_step by done. apply IH.
    + by apply N.div_lt.
    + by apply dashless_digit.
Qed.

Lemma dashless_pretty_Z (z : Z) : 0 ≤ z → dashless (pretty z) = true.
Proof.
  destruct z as [|p|p]; [done| |lia]. intros _.
  unfold pretty, pretty_Z, pretty, pretty_positive, pretty, pretty_N.
  case_decide; [done|]. by apply dashless_pretty_N_go.
Qed.

Lemma append_slash_inj (s t : string) : s +:+ "/" = t +:+ "/" → s = t.
Proof.
  revert t. induction s as [|a s IH]; intros [|b t] H; try done.
  - injection H as _ H. by destruct t.
  - injection H as _ H. by destruct s.
  - injection H as -> H. f_equal. by apply IH.
Qed.

(** A number and its closing slash hold no dash to split at. *)
Lemma dashless_no_split (n s t : string) :
  dashless n = true → n +:+ "/" ≠ s +:+ "-" +:+ t.
Proof.
  revert s. induction n as [|a n IH]; intros s Hn H.
  - destruct s as [|c s]; [done|]. injection H as _ H. by destruct s.
  - cbn [dashless] in Hn. apply andb_true_iff in Hn as [Ha Hn].
    destruct s as [|c s].
    + injection H as -> _. done.
    + injection H as _ H. by apply (IH s).
Qed.

Lemma slug_id_inj (slug1 slug2 n1 n2 : string) :
  dashless n1 = true → dashless n2 = true →
  slug1 +:+ "-" +:+ n1 +:+ "/" = slug2 +:+ "-" +:+ n2 +:+ "/" →
  slug1 = slug2 ∧ n1 = n2.
Proof.
  intros H1 H2. revert slug2.
  induction slug1 as [|a s1 IH]; intros [|b s2] H.
  - injection H as H. by apply append_slash_inj in H as ->.
  - injection H as _ H. by apply dashless_no_split in H.
  - injection H as _ H. symmetry in H. by apply dashless_no_split in H.
  - injection H as -> H. apply IH in H as [-> ->]. done.
Qed.

(** X12. The url of a create names the post: if two creates that succeed,
    on whatever stores and by whatever callers, answer with the same body,
    then the posts they stored have the same slug and the same id. *)
Theorem post_url_names_the_post slugify now1 now2 (u1 u2 : User)
    (d1 d2 : fields) (db1 db1' db2 db2' : Store) (resp1 resp2 : Response) :
  PostViewSet.dispatch slugify now1 u1 (PostViewSet.Create d1) db1
  = (Ok resp1, db1') →
  PostViewSet.dispatch slugify now2 u2 (PostViewSet.Create d2) db2
  = (Ok resp2, db2') →
  data resp1 = data resp2 →
  ∃ p1 p2 : Post,
    posts db1' = posts db1 ++ [p1] ∧ posts db2' = posts db2 ++ [p2]
    ∧ slug p1 = slug p2 ∧ post_id p1 = post_id p2.
Proof.
  rewrite !post_dispatch_eq, !post_create_eq.
  cbn [PostViewSet.action_of].
  destruct (IsAdminOrReadOnly_allows u1 act_create); [|done].
  destruct (IsAdminOrReadOnly_allows u2 act_create); [|done].
  destruct (PostWriteSerializer_validate u1 false d1) as [vd1|]; [|done].
  destruct (user_pk u1) as [k1|]; [|done].
  destruct (PostWriteSerializer_validate u2 false d2) as [vd2|]; [|done].
  destruct (user_pk u2) as [k2|]; [|done].
  cbn zeta. intros [= <- <-] [= <- <-]. cbn [data].
  intros Hdata. eexists _, _. split; [reflexivity|]. split; [reflexivity|].
  cbn [slug post_id Post_assign] in *.
  assert (∀ ids, 0 ≤ fresh_id ids) as Hpos.
  { intros ids. unfold fresh_id. assert (0 ≤ foldr Z.max 0 ids); [|lia].
    induction ids as [|x ids IH]; simpl; lia. }
  injection Hdata as Hurl.
  match type of Hurl with
  | "" +:+ ?a = "" +:+ ?b => change (a = b) in Hurl
  end.
  apply slug_id_inj in Hurl as [Hslug Hid];
    [|by apply dashless_pretty_Z..].
  split; [done|]. by apply (inj pretty).
Qed.

Lemma post_url_names_the_post_witness :
  ∃ p1 p2 : Post,
    posts (insert_post (mkPost 4 "T" "T" "B" 2 false 300) Sample.db)
    = posts Sample.db ++ [p1]
    ∧ posts (insert_post (mkPost 4 "T" "T" "C" 3 false 301) Sample.db)
      = posts Sample.db ++ [p2]
    ∧ slug p1 = slug p2 ∧ post_id p1 = post_id p2.
Proof.
  apply (post_url_names_the_post Sample.slugify 300 301 Sample.bob Sample.cy
           {[ "title" := VStr "T"; "body" := VStr "B" ]}
           {[ "title" := VStr "T"; "body" := VStr "C" ]}
           Sample.db _ Sample.db _
           (mkResponse 201
              (DDict [("url", "/posts/T-4/");
                      ("message", "Post created successfully.")]))
           (mkResponse 201
              (DDict [("url", "/posts/T-4/");
                      ("message", "Post created successfully.")]))).
  - vm_compute. reflexivity.
  - vm_compute. reflexivity.
  - reflexivity.
Defined.
